(* ===================================================================== *)
(*  godl / package sdl: bit helpers, atomics, blend modes, assertions     *)
(*                                                                         *)
(*  A shallow embedding of the Go sources and the properties the          *)
(*  specification states about them.  Go values are modelled as follows:  *)
(*    int32, int, uintptr   Z, with the wrap-around written out           *)
(*    *T                    option loc (nil is None), loc an index into   *)
(*                          the store of records                          *)
(*    package variables     fields of the record World                    *)
(*    os.Exit, panic        outcomes of a computation                     *)
(* ===================================================================== *)

From Stdlib Require Import ZArith Lia String List Bool.
From stdpp Require Import base list.
Import ListNotations.
Local Open Scope string_scope.
Local Open Scope Z_scope.

(* ===================================================================== *)
(** * Machine integers *)
(* ===================================================================== *)

Module MachineInt.

(** Two's-complement wrap-around to [bits] bits, signed. *)
Definition wrap_signed (bits : Z) (z : Z) : Z :=
  (z + 2 ^ (bits - 1)) mod 2 ^ bits - 2 ^ (bits - 1).

Definition int32_min : Z := - 2 ^ 31.
Definition int32_max : Z := 2 ^ 31 - 1.
Definition is_int32 (z : Z) : Prop := int32_min <= z <= int32_max.
Definition wrap32 (z : Z) : Z := wrap_signed 32 z.

(** Go's [int] on the 64-bit targets. *)
Definition int_min : Z := - 2 ^ 63.
Definition int_max : Z := 2 ^ 63 - 1.
Definition is_int (z : Z) : Prop := int_min <= z <= int_max.
Definition wrap_int (z : Z) : Z := wrap_signed 64 z.

Definition is_uint32 (z : Z) : Prop := 0 <= z < 2 ^ 32.

End MachineInt.

(* ===================================================================== *)
(** * Bit helpers *)
(* ===================================================================== *)

Module Bits.
Import MachineInt.

(** Go's [math/bits.Len32]: the minimum number of bits needed to
    represent [x], 0 for [x = 0].  Computed by shifting right until the
    value is exhausted; a uint32 needs at most 32 rounds. *)
Fixpoint len_loop (rounds : nat) (x : Z) : Z :=
  match rounds with
  | O => 0
  | S k => if x =? 0 then 0 else 1 + len_loop k (Z.shiftr x 1)
  end.

Definition Len32 (x : Z) : Z := len_loop 32 x.

(** [func SDL_MostSignificantBitIndex32(x uint32) int] *)
Definition SDL_MostSignificantBitIndex32 (x : Z) : Z :=
  if x =? 0 then -1 else Len32 x.

(** [func SDL_HasExactlyOneBitSet32(x uint32) bool]; [x - 1] is a
    uint32 subtraction. *)
Definition SDL_HasExactlyOneBitSet32 (x : Z) : bool :=
  negb (x =? 0) && (Z.land x ((x - 1) mod 2 ^ 32) =? 0).

End Bits.

(* ===================================================================== *)
(** * Atomics *)
(* ===================================================================== *)

Module Atomic.
Import MachineInt.

(** ** The primitives of [sync/atomic], on the content of one cell.
    Each returns its result and the new content of the cell. *)

Definition CompareAndSwap (cell old new : Z) : bool * Z :=
  if cell =? old then (true, new) else (false, cell).

Definition Swap (cell new : Z) : Z * Z := (cell, new).

Definition Load (cell : Z) : Z := cell.

Definition Store (cell v : Z) : Z := v.

Definition AddInt32 (cell delta : Z) : Z * Z :=
  let n := wrap32 (cell + delta) in (n, n).

(** ** SDL_SpinLock: [lock uintptr] *)

Record SDL_SpinLock := { lock : Z }.

(** [func (l *SDL_SpinLock) TryLock() bool] *)
Definition TryLock (l : SDL_SpinLock) : bool * SDL_SpinLock :=
  let (ok, c) := CompareAndSwap (lock l) 0 1 in (ok, {| lock := c |}).

(** [func (l *SDL_SpinLock) Unlock()] *)
Definition Unlock (l : SDL_SpinLock) : SDL_SpinLock :=
  {| lock := Store (lock l) 0 |}.

(** [func (l *SDL_SpinLock) Lock()]: retries until the swap succeeds.
    Sequentially nobody else releases the lock between two attempts;
    [spins] bounds the retries and [None] is a caller still spinning. *)
Fixpoint Lock (spins : nat) (l : SDL_SpinLock) : option SDL_SpinLock :=
  match spins with
  | O => None
  | S k =>
      let (ok, c) := CompareAndSwap (lock l) 0 1 in
      if negb ok then Lock k {| lock := c |} else Some {| lock := c |}
  end.

Definition SDL_TryLockSpinlock (l : SDL_SpinLock) := TryLock l.
Definition SDL_LockSpinlock (spins : nat) (l : SDL_SpinLock) := Lock spins l.
Definition SDL_UnlockSpinlock (l : SDL_SpinLock) := Unlock l.

(** ** SDL_AtomicInt: [struct{ value int32 }] *)

Record SDL_AtomicInt := { value : Z }.

(** [func SDL_AtomicCompareAndSwap(a *SDL_AtomicInt, oldval, newval int32) bool] *)
Definition SDL_AtomicCompareAndSwap (a : SDL_AtomicInt) (oldval newval : Z)
  : bool * SDL_AtomicInt :=
  let (ok, c) := CompareAndSwap (value a) oldval newval in (ok, {| value := c |}).

(** [func SDL_AtomicSet(a *SDL_AtomicInt, v int32) int32] *)
Definition SDL_AtomicSet (a : SDL_AtomicInt) (v : Z) : Z * SDL_AtomicInt :=
  let (prev, c) := Swap (value a) v in (prev, {| value := c |}).

(** [func SDL_AtomicGet(a *SDL_AtomicInt) int32] *)
Definition SDL_AtomicGet (a : SDL_AtomicInt) : Z := Load (value a).

(** [func SDL_AtomicAdd(a *SDL_AtomicInt, v int32) int32]:
    [old := a.value; atomic.AddInt32(&a.value, v); return old] *)
Definition SDL_AtomicAdd (a : SDL_AtomicInt) (v : Z) : Z * SDL_AtomicInt :=
  let old := value a in
  let (_, c) := AddInt32 (value a) v in
  (old, {| value := c |}).

(** [func SDL_AtomicIncRef(a *SDL_AtomicInt)] *)
Definition SDL_AtomicIncRef (a : SDL_AtomicInt) : SDL_AtomicInt :=
  snd (SDL_AtomicAdd a 1).

(** [func SDL_AtomicDecRef(a *SDL_AtomicInt) bool]:
    [return SDL_AtomicAdd(a, -1) == 1] *)
Definition SDL_AtomicDecRef (a : SDL_AtomicInt) : bool * SDL_AtomicInt :=
  let (old, a') := SDL_AtomicAdd a (-1) in (old =? 1, a').

(** ** Atomic pointers: the cell is the [uintptr] that [a] points to. *)

(** [func SDL_AtomicCompareAndSwapPointer(a *uintptr, oldval, newval uintptr) bool] *)
Definition SDL_AtomicCompareAndSwapPointer (cell oldval newval : Z) : bool * Z :=
  CompareAndSwap cell oldval newval.

(** [func SDL_AtomicSetPtr(a *uintptr, v uintptr) uintptr]:
    [atomic.StoreUintptr(a, v); return v] *)
Definition SDL_AtomicSetPtr (cell v : Z) : Z * Z :=
  let c := Store cell v in (v, c).

(** [func SDL_AtomicGetPtr(a *uintptr) uintptr] *)
Definition SDL_AtomicGetPtr (cell : Z) : Z := Load cell.

End Atomic.

(* ===================================================================== *)
(** * Blend modes *)
(* ===================================================================== *)

Module BlendMode.

(** What a call of a Go function that may panic yields. *)
Inductive GoResult (A : Type) : Type :=
| Returns (a : A)
| Panics (msg : string).
Arguments Returns {A} a.
Arguments Panics {A} msg.

Definition and_then {A B} (r : GoResult A) (k : A -> GoResult B) : GoResult B :=
  match r with
  | Returns a => k a
  | Panics msg => Panics msg
  end.

(** [type SDL_BlendMode int], [SDL_BlendOperation int], [SDL_BlendFactor int] *)
Definition SDL_BlendMode := Z.
Definition SDL_BlendOperation := Z.
Definition SDL_BlendFactor := Z.

Definition SDL_BLENDMODE_NONE : SDL_BlendMode := 0x00000000.
Definition SDL_BLENDMODE_BLEND : SDL_BlendMode := 0x00000001.
Definition SDL_BLENDMODE_ADD : SDL_BlendMode := 0x00000002.
Definition SDL_BLENDMODE_MOD : SDL_BlendMode := 0x00000004.
Definition SDL_BLENDMODE_MUL : SDL_BlendMode := 0x00000008.
Definition SDL_BLENDMODE_INVALID : SDL_BlendMode := 0x7FFFFFFF.

(** [func tern[T any](cond bool, v1, v2 T) T] *)
Definition tern {T : Type} (cond : bool) (v1 v2 : T) : T :=
  if cond then v1 else v2.

(** [func TODO() { panic("not implemeted") }] *)
Definition TODO : GoResult unit := Panics "not implemeted".

(** [func SDL_ComposeCustomBlendMode(...) SDL_BlendMode]:
    [TODO(); return SDL_BLENDMODE_INVALID] *)
Definition SDL_ComposeCustomBlendMode
    (srcColorFactor dstColorFactor : SDL_BlendFactor)
    (colorOperation : SDL_BlendOperation)
    (srcAlphaFactor dstAlphaFactor : SDL_BlendFactor)
    (alphaOperation : SDL_BlendOperation) : GoResult SDL_BlendMode :=
  and_then TODO (fun _ => Returns SDL_BLENDMODE_INVALID).

End BlendMode.

(* ===================================================================== *)
(** * Assertions *)
(* ===================================================================== *)

Module Assert.
Import MachineInt.

(** ** Data *)

Inductive SDL_AssertState : Type :=
| SDL_ASSERTION_RETRY          (* Retry the assert immediately. *)
| SDL_ASSERTION_BREAK          (* Make the debugger trigger a breakpoint. *)
| SDL_ASSERTION_ABORT          (* Terminate the program. *)
| SDL_ASSERTION_IGNORE         (* Ignore the assert. *)
| SDL_ASSERTION_ALWAYS_IGNORE. (* Ignore the assert from now on. *)

(** Records live in a store and are passed around by address. *)
Abbreviation loc := nat (only parsing).
Abbreviation ptr := (option nat) (only parsing).

Record SDL_AssertData : Type := mkAssertData {
  AlwaysIgnore : bool;
  TriggerCount : Z;
  Condition : string;
  Filename : string;
  Linenum : Z;
  Function : string;
  Next : ptr
}.

(** [SDL_AssertData{}] *)
Definition zero_AssertData : SDL_AssertData :=
  mkAssertData false 0 "" "" 0 "" None.

Definition set_AlwaysIgnore (b : bool) (d : SDL_AssertData) : SDL_AssertData :=
  mkAssertData b (TriggerCount d) (Condition d) (Filename d) (Linenum d)
               (Function d) (Next d).

Definition set_TriggerCount (n : Z) (d : SDL_AssertData) : SDL_AssertData :=
  mkAssertData (AlwaysIgnore d) n (Condition d) (Filename d) (Linenum d)
               (Function d) (Next d).

Definition set_Function (s : string) (d : SDL_AssertData) : SDL_AssertData :=
  mkAssertData (AlwaysIgnore d) (TriggerCount d) (Condition d) (Filename d)
               (Linenum d) s (Next d).

Definition set_Filename (s : string) (d : SDL_AssertData) : SDL_AssertData :=
  mkAssertData (AlwaysIgnore d) (TriggerCount d) (Condition d) s (Linenum d)
               (Function d) (Next d).

Definition set_Linenum (n : Z) (d : SDL_AssertData) : SDL_AssertData :=
  mkAssertData (AlwaysIgnore d) (TriggerCount d) (Condition d) (Filename d) n
               (Function d) (Next d).

Definition set_Next (p : ptr) (d : SDL_AssertData) : SDL_AssertData :=
  mkAssertData (AlwaysIgnore d) (TriggerCount d) (Condition d) (Filename d)
               (Linenum d) (Function d) p.

(** A value of type [SDL_AssertionHandler]: the package's own prompt or
    a function of the application, known by a number. *)
Inductive HandlerRef : Type :=
| PromptAssertion
| UserHandler (id : nat).

(** [userdata any]: nil or an opaque reference. *)
Definition userdata := option nat.

(** What one [fmt.Fscanln(os.Stdin, &buf)] finds on the next line: one
    token, or a line it rejects ([c == 0 || err != nil]: a blank line,
    more than one token).  The end of the list is the end of input. *)
Inductive ScanLine : Type :=
| Token (buf : string)
| Rejected.

(** The package variables and the process's surroundings. *)
Record World : Type := mkWorld {
  heap : list SDL_AssertData;
  triggeredAssertions : ptr;
  assertionHandler : HandlerRef;
  assertionData : userdata;
  SDL_ASSERT_LEVEL : Z;
  env_SDL_ASSERT : option string;  (* None: the variable is unset *)
  stdin : list ScanLine;
  stderr : list string;
  breakpoints : nat                 (* runtime.Breakpoint() traps taken *)
}.

Definition with_heap (h : list SDL_AssertData) (w : World) : World :=
  mkWorld h (triggeredAssertions w) (assertionHandler w) (assertionData w)
          (SDL_ASSERT_LEVEL w) (env_SDL_ASSERT w) (stdin w) (stderr w)
          (breakpoints w).

Definition with_triggeredAssertions (p : ptr) (w : World) : World :=
  mkWorld (heap w) p (assertionHandler w) (assertionData w)
          (SDL_ASSERT_LEVEL w) (env_SDL_ASSERT w) (stdin w) (stderr w)
          (breakpoints w).

Definition with_handler (h : HandlerRef) (u : userdata) (w : World) : World :=
  mkWorld (heap w) (triggeredAssertions w) h u
          (SDL_ASSERT_LEVEL w) (env_SDL_ASSERT w) (stdin w) (stderr w)
          (breakpoints w).

Definition with_stdio (i : list ScanLine) (e : list string) (w : World) : World :=
  mkWorld (heap w) (triggeredAssertions w) (assertionHandler w) (assertionData w)
          (SDL_ASSERT_LEVEL w) (env_SDL_ASSERT w) i e (breakpoints w).

Definition with_breakpoints (n : nat) (w : World) : World :=
  mkWorld (heap w) (triggeredAssertions w) (assertionHandler w) (assertionData w)
          (SDL_ASSERT_LEVEL w) (env_SDL_ASSERT w) (stdin w) (stderr w) n.

(** A process at start: handler [SDL_PromptAssertion], level 2. *)
Definition initial_World (env : option string) (input : list ScanLine) : World :=
  mkWorld [] None PromptAssertion None 2 env input [] 0.

(** ** Computations *)

Inductive Outcome (A : Type) : Type :=
| Done (a : A) (w : World)             (* the call returns *)
| Exited (code : Z) (w : World)        (* os.Exit(code) *)
| Panicked (msg : string) (w : World)  (* a run-time panic *)
| OutOfFuel.                           (* the bound of the model is used up *)
Arguments Done {A} a w.
Arguments Exited {A} code w.
Arguments Panicked {A} msg w.
Arguments OutOfFuel {A}.

Definition M (A : Type) : Type := World -> Outcome A.

Definition ret {A} (a : A) : M A := fun w => Done a w.

Definition bind {A B} (m : M A) (k : A -> M B) : M B := fun w =>
  match m w with
  | Done a w' => k a w'
  | Exited c w' => Exited c w'
  | Panicked msg w' => Panicked msg w'
  | OutOfFuel => OutOfFuel
  end.

Notation "x <- m ;; k" := (bind m (fun x => k))
  (at level 100, m at next level, right associativity).
Notation "m ;; k" := (bind m (fun _ => k))
  (at level 100, right associativity).

Definition nil_dereference : string :=
  "invalid memory address or nil pointer dereference".

(** [*p]: nil panics.  An address outside the store cannot come from a
    Go program; the model faults on it in the same way. *)
Definition load (p : ptr) : M SDL_AssertData := fun w =>
  match p with
  | None => Panicked nil_dereference w
  | Some l =>
      match heap w !! l with
      | Some d => Done d w
      | None => Panicked nil_dereference w
      end
  end.

(** [p.field = v], as an update [f] of the record at [p]. *)
Definition modify (p : ptr) (f : SDL_AssertData -> SDL_AssertData) : M unit :=
  d <- load p ;;
  fun w => match p with
           | Some l => Done tt (with_heap (<[l := f d]> (heap w)) w)
           | None => Panicked nil_dereference w
           end.

(** [&T{}] of a variable that escapes: a new record at a new address. *)
Definition alloc (d : SDL_AssertData) : M ptr := fun w =>
  Done (Some (length (heap w))) (with_heap (heap w ++ [d])%list w).

Definition get_triggeredAssertions : M ptr := fun w =>
  Done (triggeredAssertions w) w.

Definition set_triggeredAssertions (p : ptr) : M unit := fun w =>
  Done tt (with_triggeredAssertions p w).

(** [fmt.Fprintf(os.Stderr, text)] *)
Definition write_stderr (text : string) : M unit := fun w =>
  Done tt (with_stdio (stdin w) (stderr w ++ [text])%list w).

(** [runtime.Gosched()] *)
Definition Gosched : M unit := ret tt.

(** ** Process exit *)

(** [func SDL_ExitProcess(exitcode int)]: [os.Exit(exitcode)] *)
Definition SDL_ExitProcess (exitcode : Z) : M unit := fun w => Exited exitcode w.

(** [func SDL_AbortAssertion()]: [SDL_ExitProcess(42)] *)
Definition SDL_AbortAssertion : M unit := SDL_ExitProcess 42.

(** [func SDL_TriggerBreakpoint()], [func SDL_AssertBreakpoint()] *)
Definition SDL_TriggerBreakpoint : M unit := fun w =>
  Done tt (with_breakpoints (S (breakpoints w)) w).

Definition SDL_AssertBreakpoint : M unit := SDL_TriggerBreakpoint.

(** ** The list of triggered assertions *)

(** [func SDL_AddAssertionToReport(data *SDL_AssertData)] *)
Definition SDL_AddAssertionToReport (data : ptr) : M unit :=
  modify data (fun d => set_TriggerCount (wrap_int (TriggerCount d + 1)) d) ;;
  d <- load data ;;
  if TriggerCount d =? 1 then  (* not yet added? *)
    head <- get_triggeredAssertions ;;
    modify data (set_Next head) ;;
    set_triggeredAssertions data
  else ret tt.

(** The loop of [SDL_ResetAssertionReport]:
    [for item = ...; item != nil; item = next]. *)
Fixpoint reset_loop (fuel : nat) (item : ptr) {struct fuel} : M unit :=
  match item with
  | None => ret tt
  | Some _ =>
      match fuel with
      | O => fun _ => OutOfFuel
      | S k =>
          d <- load item ;;
          let next := Next d in
          modify item (set_AlwaysIgnore false) ;;
          modify item (set_TriggerCount 0) ;;
          modify item (set_Next None) ;;
          reset_loop k next
      end
  end.

(** [func SDL_ResetAssertionReport()].  Every round of the loop clears
    the [Next] of the record it visits, so the loop can visit a record
    with a non-nil [Next] at most once: one round more than there are
    records is always enough (see [reset_loop_spec]). *)
Definition SDL_ResetAssertionReport : M unit := fun w =>
  (reset_loop (S (length (heap w))) (triggeredAssertions w) ;;
   set_triggeredAssertions None) w.

(** ** Handlers *)

(** [func SDL_SetAssertionHandler(handler SDL_AssertionHandler, userdata any)] *)
Definition SDL_SetAssertionHandler (handler : option HandlerRef) (u : userdata)
  : M unit := fun w =>
  match handler with
  | Some h => Done tt (with_handler h u w)
  | None => Done tt (with_handler PromptAssertion None w)
  end.

(** [func SDL_GetDefaultAssertionHandler() SDL_AssertionHandler] *)
Definition SDL_GetDefaultAssertionHandler : M HandlerRef := ret PromptAssertion.

(** [func SDL_GetAssertionHandler() (SDL_AssertionHandler, any)] *)
Definition SDL_GetAssertionHandler : M (HandlerRef * userdata) := fun w =>
  Done (assertionHandler w, assertionData w) w.

(** [os.Getenv("SDL_ASSERT")]: the value, empty when the variable is
    not present. *)
Definition Getenv_SDL_ASSERT (w : World) : string :=
  match env_SDL_ASSERT w with
  | Some v => v
  | None => ""
  end.

Definition prompt_text : string :=
  "Abort/Break/Retry/Ignore/AlwaysIgnore? [abriA] : ".

(** The [for] loop of [SDL_PromptAssertion], on the lines still to be
    read and what was written to the error stream; [state] is the
    variable of that name. *)
Fixpoint prompt_loop (state : SDL_AssertState) (input : list ScanLine)
    (err : list string) : SDL_AssertState * list ScanLine * list string :=
  let err := (err ++ [prompt_text])%list in
  match input with
  | [] => (state, [], err)
  | Rejected :: rest => (state, rest, err)
  | Token buf :: rest =>
      if (buf =? "a")%string then (SDL_ASSERTION_ABORT, rest, err)
      else if (buf =? "b")%string then (SDL_ASSERTION_BREAK, rest, err)
      else if (buf =? "r")%string then (SDL_ASSERTION_RETRY, rest, err)
      else if (buf =? "i")%string then (SDL_ASSERTION_IGNORE, rest, err)
      else if (buf =? "A")%string then (SDL_ASSERTION_ALWAYS_IGNORE, rest, err)
      else prompt_loop state rest err
  end.

(** [func SDL_PromptAssertion(data *SDL_AssertData, userdata any) SDL_AssertState] *)
Definition SDL_PromptAssertion (data : ptr) (u : userdata) : M SDL_AssertState :=
  fun w =>
  let state := SDL_ASSERTION_ABORT in
  (* let env. variable override, so unit tests won't block in a GUI. *)
  let envr := Getenv_SDL_ASSERT w in
  if negb (envr =? "")%string then
    if (envr =? "abort")%string then Done SDL_ASSERTION_ABORT w
    else if (envr =? "break")%string then Done SDL_ASSERTION_BREAK w
    else if (envr =? "retry")%string then Done SDL_ASSERTION_RETRY w
    else if (envr =? "ignore")%string then Done SDL_ASSERTION_IGNORE w
    else if (envr =? "always_ignore")%string then Done SDL_ASSERTION_ALWAYS_IGNORE w
    else Done SDL_ASSERTION_ABORT w (* oh well. *)
  else
    let '(state, input, err) := prompt_loop state (stdin w) (stderr w) in
    Done state (with_stdio input err w).

(** ** The engine *)

(** What a handler of the application may call back into. *)
Definition ReportFn : Type := ptr -> string -> string -> Z -> M SDL_AssertState.

(** The body of an application handler: given the means to report a
    failure of its own, the record and the user data. *)
Definition HandlerBody : Type := ReportFn -> ptr -> userdata -> M SDL_AssertState.

(** Where [runtime.Caller(2)] finds the caller of the assertion. *)
Record CallSite : Type := mkCallSite {
  site_fn : string;
  site_file : string;
  site_line : Z
}.

(** The body of [func SDL_enabled_assert(condition bool)], called from
    [site], with [report] for [SDL_ReportAssertion]; a handler that fails
    an assertion itself runs it with the means it was given.  [rounds]
    bounds the rounds of the loop. *)
Fixpoint SDL_enabled_assert_with (report : ReportFn) (rounds : nat)
    (site : CallSite) (condition : bool) {struct rounds} : M unit :=
  if negb condition then
    match rounds with
    | O => fun _ => OutOfFuel
    | S k =>
        sdl_assert_data <- alloc zero_AssertData ;;
        state <- report sdl_assert_data
                   (site_fn site) (site_file site) (site_line site) ;;
        match state with
        | SDL_ASSERTION_RETRY =>
            SDL_enabled_assert_with report k site condition (* go again. *)
        | SDL_ASSERTION_BREAK => SDL_AssertBreakpoint
        | _ => ret tt (* not retrying. *)
        end
    end
  else ret tt.

Section Engine.

(** The functions of the application that may be installed as handlers. *)
Variable user_handlers : nat -> HandlerBody.

(** [assertionHandler(data, assertionData)] *)
Definition call_assertionHandler (report : ReportFn) (data : ptr)
  : M SDL_AssertState := fun w =>
  match assertionHandler w with
  | PromptAssertion => SDL_PromptAssertion data (assertionData w) w
  | UserHandler id => user_handlers id report data (assertionData w) w
  end.

(** [func SDL_ReportAssertion(data *SDL_AssertData, fn string, file string,
    line int) SDL_AssertState].  [fuel] bounds how deep handlers may
    nest reports.  [mutex] is a variable of the call: locking it
    excludes nobody and has no effect here. *)
Fixpoint SDL_ReportAssertion (fuel : nat) (data : ptr) (fn file : string)
    (line : Z) {struct fuel} : M SDL_AssertState :=
  match fuel with
  | O => fun _ => OutOfFuel
  | S fuel' =>
      let state := SDL_ASSERTION_IGNORE in
      let assertionRunning := 0 in
      d <- load data ;;
      (if TriggerCount d =? 0 then
         modify data (set_Function fn) ;;
         modify data (set_Filename file) ;;
         modify data (set_Linenum line)
       else ret tt) ;;
      SDL_AddAssertionToReport data ;;
      let assertionRunning := assertionRunning + 1 in
      (if assertionRunning >? 1 then (* assert during assert! Abort. *)
         if assertionRunning =? 2 then SDL_AbortAssertion
         else if assertionRunning =? 3 then SDL_ExitProcess 42
         else Gosched
       else ret tt) ;;
      d <- load data ;;
      state <- (if negb (AlwaysIgnore d)
                then call_assertionHandler (SDL_ReportAssertion fuel') data
                else ret state) ;;
      state <- match state with
               | SDL_ASSERTION_ALWAYS_IGNORE =>
                   modify data (set_AlwaysIgnore true) ;;
                   ret SDL_ASSERTION_IGNORE
               | SDL_ASSERTION_IGNORE
               | SDL_ASSERTION_RETRY
               | SDL_ASSERTION_BREAK => ret state
               | SDL_ASSERTION_ABORT =>
                   SDL_AbortAssertion ;;
                   ret state (* ...shouldn't return, but oh well. *)
               end ;;
      let assertionRunning := assertionRunning - 1 in
      ret state
  end.

(** [func SDL_enabled_assert(condition bool)], called from [site]. *)
Definition SDL_enabled_assert (fuel rounds : nat) (site : CallSite)
    (condition : bool) : M unit :=
  SDL_enabled_assert_with (SDL_ReportAssertion fuel) rounds site condition.

(** [func SDL_disabled_assert(condition bool)] *)
Definition SDL_disabled_assert (condition : bool) : M unit := ret tt.

(** [func SDL_assert(condition bool)] *)
Definition SDL_assert (fuel rounds : nat) (site : CallSite) (condition : bool)
  : M unit := fun w =>
  if SDL_ASSERT_LEVEL w <? 2 then SDL_disabled_assert condition w
  else SDL_enabled_assert fuel rounds site condition w.

(** [func SDL_assert_release(condition bool)] *)
Definition SDL_assert_release (fuel rounds : nat) (site : CallSite)
    (condition : bool) : M unit := fun w =>
  if SDL_ASSERT_LEVEL w <? 3 then SDL_disabled_assert condition w
  else SDL_enabled_assert fuel rounds site condition w.

(** [func SDL_assert_paranoid(condition bool)] *)
Definition SDL_assert_paranoid (fuel rounds : nat) (site : CallSite)
    (condition : bool) : M unit := fun w =>
  if SDL_ASSERT_LEVEL w <? 4 then SDL_disabled_assert condition w
  else SDL_enabled_assert fuel rounds site condition w.

(** [func SDL_assert_always(condition bool)] *)
Definition SDL_assert_always (fuel rounds : nat) (site : CallSite)
    (condition : bool) : M unit :=
  SDL_enabled_assert fuel rounds site condition.

End Engine.

(** ** The registry, as the properties below speak of it *)

(** A pointer is nil or the address of a record of the store. *)
Definition valid_ptr (h : list SDL_AssertData) (p : ptr) : Prop :=
  match p with
  | None => True
  | Some l => (l < length h)%nat
  end.

(** No pointer of the world leaves the store (true of every Go heap). *)
Definition heap_closed (w : World) : Prop :=
  valid_ptr (heap w) (triggeredAssertions w) /\
  Forall (fun d => valid_ptr (heap w) (Next d)) (heap w).

(** [reaches h p l]: following [Next] from [p] arrives at the record [l]. *)
Inductive reaches (h : list SDL_AssertData) : ptr -> loc -> Prop :=
| reaches_here (l : loc) : reaches h (Some l) l
| reaches_next (l : loc) (d : SDL_AssertData) (l' : loc) :
    h !! l = Some d -> reaches h (Next d) l' -> reaches h (Some l) l'.

(** The record at [l] is on the list of triggered assertions. *)
Definition in_registry (w : World) (l : loc) : Prop :=
  reaches (heap w) (triggeredAssertions w) l.

(** The list of triggered assertions, walked for at most [fuel] records. *)
Fixpoint registry_list (fuel : nat) (h : list SDL_AssertData) (p : ptr) : list loc :=
  match fuel, p with
  | S k, Some l =>
      match h !! l with
      | Some d => l :: registry_list k h (Next d)
      | None => [l]
      end
  | _, _ => []
  end.

(** What [SDL_ResetAssertionReport] leaves of a record it visits. *)
Definition reset_record (d : SDL_AssertData) : SDL_AssertData :=
  set_Next None (set_TriggerCount 0 (set_AlwaysIgnore false d)).

Definition cleared (h : list SDL_AssertData) (l : loc) : Prop :=
  exists d, h !! l = Some d /\
    TriggerCount d = 0 /\ AlwaysIgnore d = false /\ Next d = None.

(** The records whose [Next] is not nil: the measure of the reset loop. *)
Definition has_next (d : SDL_AssertData) : bool :=
  match Next d with
  | Some _ => true
  | None => false
  end.

Definition pending (h : list SDL_AssertData) : nat :=
  length (List.filter has_next h).

(** The record after the first lines of [SDL_ReportAssertion]: location
    captured when the count is 0, count incremented, linked in front of
    [head] when the count has become 1. *)
Definition capture_location (fn file : string) (line : Z) (d : SDL_AssertData)
  : SDL_AssertData :=
  if TriggerCount d =? 0
  then set_Linenum line (set_Filename file (set_Function fn d))
  else d.

Definition count_trigger (d : SDL_AssertData) : SDL_AssertData :=
  set_TriggerCount (wrap_int (TriggerCount d + 1)) d.

Definition registered_record (fn file : string) (line : Z) (head : ptr)
    (d : SDL_AssertData) : SDL_AssertData :=
  let d' := count_trigger (capture_location fn file line d) in
  if TriggerCount d' =? 1 then set_Next head d' else d'.

(** The world in which [SDL_ReportAssertion] consults the handler. *)
Definition registered (l : loc) (fn file : string) (line : Z) (w : World) : World :=
  match heap w !! l with
  | Some d =>
      let d' := registered_record fn file line (triggeredAssertions w) d in
      let w' := with_heap (<[l := d']> (heap w)) w in
      if TriggerCount d' =? 1 then with_triggeredAssertions (Some l) w' else w'
  | None => w
  end.

(** [n] failures of the same record in a row, and what each resolved to. *)
Fixpoint report_repeatedly (user_handlers : nat -> HandlerBody) (fuel n : nat)
    (data : ptr) (fn file : string) (line : Z) : M (list SDL_AssertState) :=
  match n with
  | O => ret []
  | S k =>
      state <- SDL_ReportAssertion user_handlers fuel data fn file line ;;
      states <- report_repeatedly user_handlers fuel k data fn file line ;;
      ret (state :: states)
  end.

(** ** Sample programs *)

(** An application without handlers of its own. *)
Definition no_user_handlers : nat -> HandlerBody :=
  fun _ _ _ _ => ret SDL_ASSERTION_ABORT.

(** A call site, and a process whose environment says [SDL_ASSERT=ignore]. *)
Definition sample_site : CallSite := mkCallSite "main.check" "main.go" 10.

Definition ignoring_World : World := initial_World (Some "ignore") [].

(** The same assertion failing twice at [sample_site]. *)
Definition fail_twice (fuel rounds : nat) : M unit :=
  SDL_enabled_assert no_user_handlers fuel rounds sample_site false ;;
  SDL_enabled_assert no_user_handlers fuel rounds sample_site false.

(** A handler that fails an assertion of its own, at [inner_site], while
    it handles a failure of [outer_site].  It notes every invocation on
    the error stream. *)
Definition outer_site : CallSite := mkCallSite "main.run" "main.go" 3.

Definition inner_site : CallSite := mkCallSite "app.onAssert" "app.go" 7.

Definition nesting_handler : HandlerBody := fun report data _ =>
  d <- load data ;;
  write_stderr ("handler: " ++ Function d) ;;
  if (Function d =? site_fn outer_site)%string then
    SDL_enabled_assert_with report 1 inner_site false ;;
    ret SDL_ASSERTION_IGNORE
  else ret SDL_ASSERTION_IGNORE.

Definition nesting_handlers : nat -> HandlerBody := fun _ => nesting_handler.

(** The process after [SDL_SetAssertionHandler] installed that handler. *)
Definition nesting_World : World :=
  mkWorld [] None (UserHandler 0) None 2 None [] [] 0.

(** A process started with [SDL_ASSERT=] (set, empty) and a user who
    answers [i]. *)
Definition empty_override_World : World := initial_World (Some "") [Token "i"].

(** The world [fail_twice] leaves: two records of the same call site. *)
Definition two_failures_World : World :=
  mkWorld [mkAssertData false 1 "" "main.go" 10 "main.check" None;
           mkAssertData false 1 "" "main.go" 10 "main.check" (Some 0%nat)]
          (Some 1%nat) PromptAssertion None 2 (Some "ignore") [] [] 0.

(** A process whose environment says [SDL_ASSERT=always_ignore], with one
    record that has not failed yet. *)
Definition always_ignoring_World : World :=
  with_heap [zero_AssertData] (initial_World (Some "always_ignore") []).

(** A line of input that the prompt does not accept as an answer. *)
Definition unrecognized (ln : ScanLine) : Prop :=
  exists buf, ln = Token buf /\
    buf <> "a" /\ buf <> "b" /\ buf <> "r" /\ buf <> "i" /\ buf <> "A".

(** ** The report *)

(** An argument of a logging call, and the call itself. *)
Inductive LogArg : Type :=
| ArgString (s : string)
| ArgInt (z : Z).

Definition LogCall : Type := (string * list LogArg)%type.

(** [func debug_print(form string, args ...any)]: [slog.Warn(form, args...)].
    The log is outside the package; a function that logs returns the
    calls it made, in order. *)
Definition debug_print (form : string) (args : list LogArg) : LogCall :=
  (form, args).

Definition newline : string := String (Ascii.ascii_of_nat 10) "".

(** The call that [SDL_GenerateAssertionReport] makes for one record. *)
Definition report_entry (item : SDL_AssertData) : LogCall :=
  debug_print
    ("'%s'" ++ newline ++
     "    * %s (%s:%d)" ++ newline ++
     "    * triggered %d time%s." ++ newline ++
     "    * always ignore: %s." ++ newline)
    [ArgString (Condition item); ArgString (Function item);
     ArgString (Filename item); ArgInt (Linenum item);
     ArgInt (TriggerCount item);
     ArgString (BlendMode.tern (TriggerCount item =? 1) "" "s");
     ArgString (BlendMode.tern (AlwaysIgnore item) "yes" "no")].

(** The loop [for item != nil] of [SDL_GenerateAssertionReport]; [fuel]
    bounds its rounds. *)
Fixpoint report_loop (fuel : nat) (item : ptr) {struct fuel} : M (list LogCall) :=
  match item with
  | None => ret []
  | Some _ =>
      match fuel with
      | O => fun _ => OutOfFuel
      | S k =>
          d <- load item ;;
          calls <- report_loop k (Next d) ;;
          ret (report_entry d :: calls)
      end
  end.

(** [func SDL_GenerateAssertionReport()] *)
Definition SDL_GenerateAssertionReport (fuel : nat) : M (list LogCall) :=
  item <- get_triggeredAssertions ;;
  match item with
  | Some _ =>
      calls <- report_loop fuel item ;;
      SDL_ResetAssertionReport ;;
      ret ([debug_print (newline ++ newline ++ "SDL assertion report." ++ newline) [];
            debug_print ("All SDL assertions between last init/quit:"
                         ++ newline ++ newline) []]
           ++ calls ++ [debug_print newline []])%list
  | None => ret []
  end.

(** [func SDL_AssertionsQuit()] *)
Definition SDL_AssertionsQuit (fuel : nat) : M (list LogCall) := fun w =>
  if SDL_ASSERT_LEVEL w >? 0 then SDL_GenerateAssertionReport fuel w
  else Done [] w.

(** ** More of the registry *)

(** [chain h p ls]: from [p] the [Next] pointers run through the records
    [ls], in this order, and end in nil. *)
Inductive chain (h : list SDL_AssertData) : ptr -> list loc -> Prop :=
| chain_nil : chain h None []
| chain_cons (l : loc) (d : SDL_AssertData) (ls : list loc) :
    h !! l = Some d -> chain h (Next d) ls -> chain h (Some l) (l :: ls).

(** The world after one failure at [site] that the caller survives: one
    more record, with count 1, in front of the list. *)
Definition one_more_failure (site : CallSite) (w : World) : World :=
  with_triggeredAssertions (Some (length (heap w)))
    (with_heap
       (heap w ++ [mkAssertData false 1 "" (site_file site) (site_line site)
                     (site_fn site) (triggeredAssertions w)])%list w).

(** A list of two records, for the report. *)
Definition report_World : World :=
  mkWorld [mkAssertData false 1 "x > 0" "a.go" 4 "main.f" None;
           mkAssertData true 3 "ok" "b.go" 9 "main.g" (Some 0%nat)]
          (Some 1%nat) PromptAssertion None 2 None [] [] 0.

(** A list that never ends: its only record points to itself. *)
Definition self_linked_World : World :=
  mkWorld [mkAssertData false 1 "" "main.go" 10 "main.check" (Some 0%nat)]
          (Some 0%nat) PromptAssertion None 2 None [] [] 0.

End Assert.

(* ===================================================================== *)
(** * Properties: machine integers and bit helpers *)
(* ===================================================================== *)

Section MachineIntFacts.
Import MachineInt.

Lemma wrap32_id z : is_int32 z -> wrap32 z = z.
Proof.
  unfold is_int32, int32_min, int32_max, wrap32, wrap_signed.
  intros H. rewrite Z.mod_small; lia.
Qed.

Lemma wrap32_range z : is_int32 (wrap32 z).
Proof.
  unfold is_int32, int32_min, int32_max, wrap32, wrap_signed.
  pose proof (Z.mod_pos_bound (z + 2 ^ (32 - 1)) (2 ^ 32)). lia.
Qed.

Lemma wrap_int_id z : is_int z -> wrap_int z = z.
Proof.
  unfold is_int, int_min, int_max, wrap_int, wrap_signed.
  intros H. rewrite Z.mod_small; lia.
Qed.

Lemma wrap_int_range z : is_int (wrap_int z).
Proof.
  unfold is_int, int_min, int_max, wrap_int, wrap_signed.
  pose proof (Z.mod_pos_bound (z + 2 ^ (64 - 1)) (2 ^ 64)). lia.
Qed.

End MachineIntFacts.

Section BitsFacts.
Import MachineInt Bits.

Lemma len_loop_zero (k : nat) : len_loop k 0 = 0.
Proof. destruct k; reflexivity. Qed.

(** Shifting right until nothing is left counts [log2 x + 1] rounds. *)
Lemma len_loop_log2 (k : nat) : forall x : Z,
  0 < x < 2 ^ Z.of_nat k -> len_loop k x = Z.log2 x + 1.
Proof.
  induction k as [|k IH]; intros x Hx.
  - simpl in Hx. lia.
  - cbn [len_loop]. destruct (Z.eqb_spec x 0) as [->|_]; [lia|].
    destruct (Z.eq_dec x 1) as [->|Hne].
    + cbn. now rewrite len_loop_zero.
    + assert (Hlog : Z.log2 (Z.shiftr x 1) = Z.log2 x - 1).
      { rewrite Z.log2_shiftr by lia.
        assert (1 <= Z.log2 x) by (apply Z.log2_le_pow2; simpl; lia). lia. }
      assert (Hhalf : 0 < Z.shiftr x 1 < 2 ^ Z.of_nat k).
      { rewrite Z.shiftr_div_pow2 by lia. change (2 ^ 1) with 2.
        rewrite Nat2Z.inj_succ, Z.pow_succ_r in Hx by lia.
        split.
        - apply Z.div_str_pos. lia.
        - apply Z.div_lt_upper_bound; lia. }
      rewrite (IH _ Hhalf). lia.
Qed.

Lemma Len32_log2 (x : Z) : is_uint32 x -> x <> 0 -> Len32 x = Z.log2 x + 1.
Proof.
  intros [Hlo Hhi] Hne. unfold Len32.
  apply len_loop_log2. change (Z.of_nat 32) with 32. lia.
Qed.

(** C9: [SDL_MostSignificantBitIndex32] returns -1 for 0, and for every
    nonzero 32-bit [x] the bit length of [x]: [floor(log2 x) + 1], the
    position of the highest set bit plus one, between 1 and 32. *)
Theorem MostSignificantBitIndex32_bit_length (x : Z) (Hx : is_uint32 x) :
  (x = 0 -> SDL_MostSignificantBitIndex32 x = -1) /\
  (x <> 0 ->
     SDL_MostSignificantBitIndex32 x = Z.log2 x + 1 /\
     1 <= SDL_MostSignificantBitIndex32 x <= 32 /\
     2 ^ (SDL_MostSignificantBitIndex32 x - 1) <= x
       < 2 ^ SDL_MostSignificantBitIndex32 x).
Proof.
  split.
  - intros ->. reflexivity.
  - intros Hne. pose proof Hx as [Hlo Hhi].
    assert (Hpos : 0 < x) by lia.
    unfold SDL_MostSignificantBitIndex32.
    destruct (Z.eqb_spec x 0) as [?|_]; [lia|].
    rewrite (Len32_log2 x Hx Hne).
    pose proof (Z.log2_spec x Hpos) as Hspec.
    pose proof (Z.log2_nonneg x) as Hnn.
    assert (Z.log2 x < 32) by (apply Z.log2_lt_pow2; lia).
    replace (Z.log2 x + 1 - 1) with (Z.log2 x) by lia.
    replace (Z.log2 x + 1) with (Z.succ (Z.log2 x)) by lia.
    repeat split; lia.
Qed.

Lemma MostSignificantBitIndex32_bit_length_witness :
  is_uint32 40 /\ SDL_MostSignificantBitIndex32 40 = Z.log2 40 + 1.
Proof.
  assert (H : is_uint32 40) by (unfold is_uint32; lia).
  split; [exact H|].
  apply (MostSignificantBitIndex32_bit_length 40 H). lia.
Defined.

End BitsFacts.

(* ===================================================================== *)
(** * Properties: atomics *)
(* ===================================================================== *)

Section AtomicFacts.
Import MachineInt Atomic.

Lemma AtomicAdd_result (a : SDL_AtomicInt) (v : Z) :
  SDL_AtomicAdd a v = (value a, {| value := wrap32 (value a + v) |}).
Proof. reflexivity. Qed.

(** C3, at the smallest int32: the counter wraps to the largest int32,
    which is not the value before the call minus 1. *)
Lemma AtomicDecRef_wraps_at_int32_min :
  is_int32 (-2147483648) /\
  SDL_AtomicDecRef {| value := -2147483648 |} = (false, {| value := 2147483647 |}) /\
  value (snd (SDL_AtomicDecRef {| value := -2147483648 |})) <> -2147483648 - 1.
Proof.
  split; [unfold is_int32, int32_min, int32_max; lia|].
  split; [reflexivity|]. vm_compute. discriminate.
Qed.

(** C3, amended: [SDL_AtomicDecRef] returns true exactly when the value
    before the call was 1; the value after the call is the value before
    minus 1 in int32 arithmetic, which is the value before minus 1 for
    every value but the smallest int32, where it wraps to the largest. *)
Theorem AtomicDecRef_true_iff_one (a : SDL_AtomicInt) (Ha : is_int32 (value a)) :
  (fst (SDL_AtomicDecRef a) = true <-> value a = 1) /\
  value (snd (SDL_AtomicDecRef a)) = wrap32 (value a - 1) /\
  (value a <> int32_min -> value (snd (SDL_AtomicDecRef a)) = value a - 1) /\
  (value a = int32_min -> value (snd (SDL_AtomicDecRef a)) = int32_max).
Proof.
  unfold SDL_AtomicDecRef. rewrite AtomicAdd_result. cbn [fst snd value].
  replace (value a + -1) with (value a - 1) by lia.
  split; [apply Z.eqb_eq|]. split; [reflexivity|]. split.
  - intros Hne. apply wrap32_id.
    unfold is_int32, int32_min, int32_max in *. lia.
  - intros ->. reflexivity.
Qed.

Lemma AtomicDecRef_true_iff_one_witness :
  is_int32 1 /\ fst (SDL_AtomicDecRef {| value := 1 |}) = true /\
  value (snd (SDL_AtomicDecRef {| value := 1 |})) = 0.
Proof.
  assert (H : is_int32 (value {| value := 1 |}))
    by (unfold is_int32, int32_min, int32_max; simpl; lia).
  split; [exact H|].
  pose proof (AtomicDecRef_true_iff_one {| value := 1 |} H) as [Hiff [_ [Hdec _]]].
  split.
  - apply Hiff. reflexivity.
  - apply Hdec. unfold int32_min. simpl. lia.
Defined.

(** The integer half of C4: [SDL_AtomicSet] returns the previous value. *)
Lemma AtomicSet_returns_previous (p v : Z) :
  SDL_AtomicSet {| value := p |} v = (p, {| value := v |}).
Proof. reflexivity. Qed.

(** C4, pointer half: [SDL_AtomicSetPtr] stores the value but returns
    the value it was given, not the one the variable held. *)
Theorem AtomicSetPtr_returns_new_value :
  SDL_AtomicSetPtr 1 2 = (2, 2) /\
  fst (SDL_AtomicSetPtr 1 2) <> 1 /\
  (forall p v : Z, SDL_AtomicSetPtr p v = (v, v)).
Proof.
  split; [reflexivity|]. split; [vm_compute; discriminate|]. reflexivity.
Qed.

(** C8: [TryLock] on a held lock returns false and leaves the lock as it
    is; after [Unlock], [TryLock] returns true and holds the lock. *)
Theorem SpinLock_TryLock_held_then_unlocked (l : SDL_SpinLock)
    (Hheld : lock l <> 0) :
  TryLock l = (false, l) /\
  lock (Unlock l) = 0 /\
  TryLock (Unlock l) = (true, {| lock := 1 |}).
Proof.
  destruct l as [c]. cbn [lock] in Hheld.
  unfold TryLock, Unlock, CompareAndSwap, Store. cbn [lock].
  destruct (Z.eqb_spec c 0) as [?|_]; [contradiction|].
  repeat split.
Qed.

Lemma SpinLock_TryLock_held_then_unlocked_witness :
  TryLock {| lock := 1 |} = (false, {| lock := 1 |}) /\
  TryLock (Unlock {| lock := 1 |}) = (true, {| lock := 1 |}).
Proof.
  assert (H : lock {| lock := 1 |} <> 0) by (simpl; lia).
  pose proof (SpinLock_TryLock_held_then_unlocked {| lock := 1 |} H) as [H1 [_ H2]].
  split; [exact H1 | exact H2].
Defined.

End AtomicFacts.

(* ===================================================================== *)
(** * Properties: blend modes *)
(* ===================================================================== *)

Section BlendModeFacts.
Import BlendMode.

(** C10: whatever factors and operations it is given,
    [SDL_ComposeCustomBlendMode] panics with the message of [TODO] and
    returns no blend mode, [SDL_BLENDMODE_INVALID] included. *)
Theorem ComposeCustomBlendMode_panics
    (srcColorFactor dstColorFactor : SDL_BlendFactor)
    (colorOperation : SDL_BlendOperation)
    (srcAlphaFactor dstAlphaFactor : SDL_BlendFactor)
    (alphaOperation : SDL_BlendOperation) :
  SDL_ComposeCustomBlendMode srcColorFactor dstColorFactor colorOperation
      srcAlphaFactor dstAlphaFactor alphaOperation
    = Panics "not implemeted" /\
  forall m : SDL_BlendMode,
    SDL_ComposeCustomBlendMode srcColorFactor dstColorFactor colorOperation
      srcAlphaFactor dstAlphaFactor alphaOperation
    <> Returns m.
Proof.
  split; [reflexivity|]. intros m. unfold SDL_ComposeCustomBlendMode, TODO, and_then.
  discriminate.
Qed.

End BlendModeFacts.

(* ===================================================================== *)
(** * Properties: assertions *)
(* ===================================================================== *)

Section AssertFacts.
Import MachineInt Assert.

(** *** Running computations *)

Lemma bind_Done {A B} (m : M A) (k : A -> M B) (w w' : World) (a : A) :
  m w = Done a w' -> bind m k w = k a w'.
Proof. intros H. unfold bind. now rewrite H. Qed.

Lemma load_at (w : World) (l : loc) (d : SDL_AssertData) :
  heap w !! l = Some d -> load (Some l) w = Done d w.
Proof. intros H. unfold load. now rewrite H. Qed.

Lemma modify_at (w : World) (l : loc) (d : SDL_AssertData)
    (f : SDL_AssertData -> SDL_AssertData) :
  heap w !! l = Some d ->
  modify (Some l) f w = Done tt (with_heap (<[l := f d]> (heap w)) w).
Proof. intros H. unfold modify. now rewrite (bind_Done _ _ _ _ _ (load_at _ _ _ H)). Qed.

Lemma with_heap_twice (h1 h2 : list SDL_AssertData) (w : World) :
  with_heap h2 (with_heap h1 w) = with_heap h2 w.
Proof. reflexivity. Qed.

Lemma with_heap_same (w : World) : with_heap (heap w) w = w.
Proof. now destruct w. Qed.

Lemma lookup_updated (h : list SDL_AssertData) (l : loc) (d d' : SDL_AssertData) :
  h !! l = Some d -> <[l := d']> h !! l = Some d'.
Proof. intros H. apply list_lookup_insert_eq. eapply lookup_lt_Some, H. Qed.

(** Three field updates in a row are one update of the record. *)
Lemma modify_modify (w : World) (l : loc) (d : SDL_AssertData)
    (f g : SDL_AssertData -> SDL_AssertData) (B : Type) (k : M B) :
  heap w !! l = Some d ->
  (modify (Some l) f ;; modify (Some l) g ;; k) w
  = (modify (Some l) (fun d => g (f d)) ;; k) w.
Proof.
  intros H.
  rewrite (bind_Done _ _ _ _ _ (modify_at _ _ _ f H)).
  rewrite (bind_Done _ _ _ _ _ (modify_at _ _ _ (fun d => g (f d)) H)).
  assert (H' : heap (with_heap (<[l:=f d]> (heap w)) w) !! l = Some (f d))
    by (cbn; eapply lookup_updated, H).
  rewrite (bind_Done _ _ _ _ _ (modify_at _ _ _ g H')).
  cbn [heap with_heap]. now rewrite list_insert_insert_eq.
Qed.


(** *** The first lines of [SDL_ReportAssertion] *)

Lemma registered_record_flag (fn file : string) (line : Z) (head : ptr)
    (d : SDL_AssertData) :
  AlwaysIgnore (registered_record fn file line head d) = AlwaysIgnore d.
Proof.
  unfold registered_record, count_trigger, capture_location.
  repeat match goal with |- context [if ?c then _ else _] => destruct c end;
    reflexivity.
Qed.

Lemma registered_lookup (l : loc) (fn file : string) (line : Z) (w : World)
    (d : SDL_AssertData) :
  heap w !! l = Some d ->
  heap (registered l fn file line w) !! l
  = Some (registered_record fn file line (triggeredAssertions w) d).
Proof.
  intros H. unfold registered. rewrite H. cbn zeta.
  destruct (_ =? 1); cbn; eapply lookup_updated, H.
Qed.

Lemma AddAssertionToReport_at (w : World) (l : loc) (d : SDL_AssertData) :
  heap w !! l = Some d ->
  SDL_AddAssertionToReport (Some l) w
  = Done tt
      (let d' := count_trigger d in
       if TriggerCount d' =? 1
       then with_triggeredAssertions (Some l)
              (with_heap (<[l := set_Next (triggeredAssertions w) d']> (heap w)) w)
       else with_heap (<[l := d']> (heap w)) w).
Proof.
  intros H. unfold SDL_AddAssertionToReport.
  rewrite (bind_Done _ _ _ _ _ (modify_at _ _ _ _ H)).
  fold (count_trigger d).
  assert (H1 : heap (with_heap (<[l := count_trigger d]> (heap w)) w) !! l
               = Some (count_trigger d)) by (cbn; eapply lookup_updated, H).
  rewrite (bind_Done _ _ _ _ _ (load_at _ _ _ H1)). cbn zeta.
  destruct (TriggerCount (count_trigger d) =? 1); [|reflexivity].
  unfold bind at 1, get_triggeredAssertions. cbv beta iota.
  cbn [triggeredAssertions with_heap].
  rewrite (bind_Done _ _ _ _ _ (modify_at _ _ _ _ H1)).
  unfold set_triggeredAssertions. cbn [heap with_heap].
  now rewrite list_insert_insert_eq.
Qed.

(** *** Resetting the report *)

Lemma reset_loop_nil (fuel : nat) (w : World) : reset_loop fuel None w = Done tt w.
Proof. destruct fuel; reflexivity. Qed.

(** One round of the loop. *)
Lemma reset_loop_step (k : nat) (l : loc) (d : SDL_AssertData) (w : World) :
  heap w !! l = Some d ->
  reset_loop (S k) (Some l) w
  = reset_loop k (Next d) (with_heap (<[l := reset_record d]> (heap w)) w).
Proof.
  intros H. cbn [reset_loop].
  rewrite (bind_Done _ _ _ _ _ (load_at _ _ _ H)). cbv zeta.
  rewrite (modify_modify _ _ _ _ _ _ _ H).
  rewrite (modify_modify _ _ _ _ _ _ _ H).
  rewrite (bind_Done _ _ _ _ _ (modify_at _ _ _ _ H)).
  reflexivity.
Qed.

Lemma reset_record_cleared (h : list SDL_AssertData) (l : loc) (d : SDL_AssertData) :
  (l < length h)%nat -> cleared (<[l := reset_record d]> h) l.
Proof.
  intros Hl. exists (reset_record d). split; [now apply list_lookup_insert_eq|].
  repeat split.
Qed.

Lemma cleared_insert_mono (h : list SDL_AssertData) (x l : loc) (d : SDL_AssertData) :
  (x < length h)%nat -> cleared h l -> cleared (<[x := reset_record d]> h) l.
Proof.
  intros Hx Hc. destruct (decide (x = l)) as [->|Hne].
  - now apply reset_record_cleared.
  - destruct Hc as (d' & Hd' & Hrest). exists d'.
    split; [|exact Hrest]. now rewrite list_lookup_insert_ne.
Qed.

Lemma cleared_insert_other (h : list SDL_AssertData) (x l : loc) (d : SDL_AssertData) :
  x <> l -> cleared (<[x := d]> h) l -> cleared h l.
Proof.
  intros Hne (d' & Hd' & Hrest). exists d'. split; [|exact Hrest].
  now rewrite list_lookup_insert_ne in Hd'.
Qed.

Lemma pending_le_length (h : list SDL_AssertData) : (pending h <= length h)%nat.
Proof. unfold pending. apply List.filter_length_le. Qed.

(** Clearing a record that had a successor lowers the measure. *)
Lemma pending_reset_record (h : list SDL_AssertData) : forall (l : loc) (d : SDL_AssertData),
  h !! l = Some d -> has_next d = true ->
  S (pending (<[l := reset_record d]> h)) = pending h.
Proof.
  unfold pending.
  induction h as [|a h IH]; intros [|l] d Hl Hn; try discriminate.
  - cbn in Hl. injection Hl as ->. cbn. now rewrite Hn.
  - cbn in Hl. cbn [insert list_insert List.filter].
    change (list_insert l (reset_record d) h) with (<[l := reset_record d]> h).
    destruct (has_next a); cbn [length]; [f_equal|]; exact (IH l d Hl Hn).
Qed.

Lemma reaches_nil (h : list SDL_AssertData) (l : loc) : ~ reaches h None l.
Proof. intros H. inversion H. Qed.

(** A set of records closed under [Next] contains all that its members reach. *)
Lemma reaches_closed (h0 : list SDL_AssertData) (C : loc -> Prop) :
  (forall l d0 l', C l -> h0 !! l = Some d0 -> Next d0 = Some l' -> C l') ->
  forall p l', reaches h0 p l' -> forall l, p = Some l -> C l -> C l'.
Proof.
  intros Hclosed p l' Hr.
  induction Hr as [l0 | l0 d0 l1 Hd0 Hr IH]; intros l Hp HC.
  - now injection Hp as <-.
  - injection Hp as <-. destruct (Next d0) as [n|] eqn:En.
    + apply (IH n eq_refl). eapply Hclosed; eauto.
    + now apply reaches_nil in Hr.
Qed.

Section ResetLoop.

Variable h0 : list SDL_AssertData.
Hypothesis h0_closed : Forall (fun d => valid_ptr h0 (Next d)) h0.

(** The loop, started anywhere inside a traversal of [h0]: it returns,
    and every record that was already cleared or that [item] reaches in
    [h0] is cleared when it does. *)
Lemma reset_loop_spec : forall (fuel : nat) (w : World) (item : ptr),
  length (heap w) = length h0 ->
  valid_ptr h0 item ->
  (forall l, heap w !! l = h0 !! l \/ cleared (heap w) l) ->
  (forall l d0 l', cleared (heap w) l -> h0 !! l = Some d0 -> Next d0 = Some l' ->
     item = Some l' \/ cleared (heap w) l') ->
  (pending (heap w) < fuel)%nat ->
  exists h', reset_loop fuel item w = Done tt (with_heap h' w) /\
    length h' = length h0 /\
    (forall l, cleared (heap w) l \/ reaches h0 item l -> cleared h' l).
Proof.
  induction fuel as [|k IH]; intros w item Hlen Hvalid Hsame Hsucc Hfuel; [lia|].
  destruct item as [x|].
  2:{ exists (heap w). rewrite reset_loop_nil, with_heap_same.
      split; [reflexivity|]. split; [exact Hlen|].
      intros l [Hc|Hr]; [exact Hc | now apply reaches_nil in Hr]. }
  cbn in Hvalid.
  assert (Hx : (x < length (heap w))%nat) by lia.
  destruct (lookup_lt_is_Some_2 _ _ Hx) as [d Hd].
  rewrite (reset_loop_step _ _ _ _ Hd).
  set (h2 := <[x := reset_record d]> (heap w)).
  assert (Hmono : forall l, cleared (heap w) l -> cleared h2 l)
    by (intros l; now apply cleared_insert_mono).
  assert (Hx2 : cleared h2 x) by now apply reset_record_cleared.
  destruct (Next d) as [n|] eqn:En.
  - (* the record had a successor: it had not been visited *)
    assert (Hd0 : h0 !! x = Some d).
    { destruct (Hsame x) as [Heq | (d' & Hd' & _ & _ & Hnil)]; [congruence|].
      congruence. }
    destruct (IH (with_heap h2 w) (Some n)) as (h' & Hrun & Hlen' & Hall).
    + cbn. unfold h2. now rewrite length_insert.
    + pose proof (Forall_lookup_1 _ _ _ _ h0_closed Hd0) as Hv.
      cbv beta in Hv. now rewrite En in Hv.
    + intros l. cbn [heap with_heap]. destruct (decide (x = l)) as [<-|Hne].
      * now right.
      * unfold h2 at 1. rewrite list_lookup_insert_ne by exact Hne.
        destruct (Hsame l) as [Heq|Hc]; [now left | right; now apply Hmono].
    + intros l d0 l' Hc Hl0 Hnext. cbn [heap with_heap] in *.
      destruct (decide (x = l)) as [<-|Hne].
      * left. congruence.
      * right. apply (cleared_insert_other _ _ _ _ Hne) in Hc.
        destruct (Hsucc l d0 l' Hc Hl0 Hnext) as [Hitem|Hc'].
        -- injection Hitem as ->. exact Hx2.
        -- now apply Hmono.
    + cbn [heap with_heap]. unfold h2.
      assert (Hn : has_next d = true) by (unfold has_next; now rewrite En).
      pose proof (pending_reset_record _ _ _ Hd Hn). lia.
    + exists h'. split; [exact Hrun|]. split; [exact Hlen'|].
      intros l [Hc|Hr]; apply Hall.
      * left. now apply Hmono.
      * inversion Hr as [|? d1 ? Hd1 Hr']; subst.
        -- left. exact Hx2.
        -- right. rewrite Hd0 in Hd1. injection Hd1 as <-. now rewrite En in Hr'.
  - (* no successor: the loop ends here *)
    exists h2. rewrite reset_loop_nil. split; [reflexivity|].
    split; [unfold h2; now rewrite length_insert|].
    intros l [Hc|Hr]; [now apply Hmono|].
    destruct (Hsame x) as [Heq | Hcx].
    + inversion Hr as [|? d1 ? Hd1 Hr']; subst; [exact Hx2|].
      rewrite <- Heq, Hd in Hd1. injection Hd1 as <-.
      rewrite En in Hr'. now apply reaches_nil in Hr'.
    + (* visited before: everything it reaches in [h0] is cleared *)
      apply (reaches_closed h0 (cleared h2)) with (p := Some x) (l := x);
        [|exact Hr|reflexivity|exact Hx2].
      intros l1 d1 l1' Hc1 Hl1 Hn1.
      assert (Hc1' : cleared (heap w) l1).
      { destruct (decide (x = l1)) as [<-|Hne]; [exact Hcx|].
        now apply (cleared_insert_other _ _ _ _ Hne) in Hc1. }
      destruct (Hsucc l1 d1 l1' Hc1' Hl1 Hn1) as [Hitem|Hc'].
      * injection Hitem as ->. exact Hx2.
      * now apply Hmono.
Qed.

End ResetLoop.

(** [SDL_ResetAssertionReport] returns, with the list empty and every
    record that was on it cleared. *)
Lemma ResetAssertionReport_spec (w : World) :
  heap_closed w ->
  exists h', SDL_ResetAssertionReport w
             = Done tt (with_triggeredAssertions None (with_heap h' w)) /\
    length h' = length (heap w) /\
    (forall l, in_registry w l -> cleared h' l).
Proof.
  intros [Hhead Hnext].
  destruct (reset_loop_spec (heap w) Hnext (S (length (heap w))) w
              (triggeredAssertions w)) as (h' & Hrun & Hlen & Hall).
  - reflexivity.
  - exact Hhead.
  - intros l. now left.
  - intros l d0 l' (d & Hd & _ & _ & Hnil) Hl Hn. congruence.
  - pose proof (pending_le_length (heap w)). lia.
  - exists h'. split; [|split; [exact Hlen|]].
    + unfold SDL_ResetAssertionReport.
      rewrite (bind_Done _ _ _ _ _ Hrun). reflexivity.
    + intros l Hl. apply Hall. now right.
Qed.

(** *** What registration does to a record *)

(** First trigger: the location is captured, the count is 1, the record
    is the new head of the list and points to the old head. *)
Lemma registered_first (l : loc) (fn file : string) (line : Z) (w : World)
    (d : SDL_AssertData) :
  heap w !! l = Some d -> TriggerCount d = 0 ->
  triggeredAssertions (registered l fn file line w) = Some l /\
  exists d1, heap (registered l fn file line w) !! l = Some d1 /\
    Function d1 = fn /\ Filename d1 = file /\ Linenum d1 = line /\
    TriggerCount d1 = 1 /\ Next d1 = triggeredAssertions w /\
    AlwaysIgnore d1 = AlwaysIgnore d /\ Condition d1 = Condition d.
Proof.
  intros H H0.
  assert (Hrec : registered_record fn file line (triggeredAssertions w) d
                 = set_Next (triggeredAssertions w)
                     (set_TriggerCount 1
                        (set_Linenum line (set_Filename file (set_Function fn d))))).
  { unfold registered_record, count_trigger, capture_location.
    rewrite H0. change (0 =? 0) with true. cbv iota.
    cbn [TriggerCount set_Linenum set_Filename set_Function set_TriggerCount].
    rewrite H0. reflexivity. }
  split.
  - unfold registered. rewrite H. cbv zeta. rewrite Hrec. reflexivity.
  - eexists. split; [apply (registered_lookup _ _ _ _ _ _ H)|].
    rewrite Hrec. repeat split.
Qed.

(** Later triggers: the count goes up by one and nothing else changes,
    the list included. *)
Lemma registered_again (l : loc) (fn file : string) (line : Z) (w : World)
    (d : SDL_AssertData) :
  heap w !! l = Some d -> 0 < TriggerCount d < int_max ->
  registered l fn file line w
  = with_heap (<[l := set_TriggerCount (TriggerCount d + 1) d]> (heap w)) w.
Proof.
  intros H Hn. unfold registered. rewrite H. cbv zeta.
  assert (Hrec : registered_record fn file line (triggeredAssertions w) d
                 = set_TriggerCount (TriggerCount d + 1) d).
  { unfold registered_record, count_trigger, capture_location.
    destruct (Z.eqb_spec (TriggerCount d) 0) as [?|_]; [lia|].
    rewrite wrap_int_id by (unfold is_int, int_min, int_max in *; lia).
    cbn [TriggerCount set_TriggerCount].
    destruct (Z.eqb_spec (TriggerCount d + 1) 1) as [?|_]; [lia|]. reflexivity. }
  rewrite Hrec. cbn [TriggerCount set_TriggerCount].
  destruct (Z.eqb_spec (TriggerCount d + 1) 1) as [?|_]; [lia|]. reflexivity.
Qed.

Section WithHandlers.

Variable user_handlers : nat -> HandlerBody.

(** [SDL_ReportAssertion] on a record of the store: the record is
    registered, then the verdict is found and acted on. *)
Lemma ReportAssertion_unfold (fuel : nat) (l : loc) (d : SDL_AssertData)
    (fn file : string) (line : Z) (w : World) :
  heap w !! l = Some d ->
  SDL_ReportAssertion user_handlers (S fuel) (Some l) fn file line w
  = (d <- load (Some l) ;;
     state <- (if negb (AlwaysIgnore d)
               then call_assertionHandler user_handlers
                      (SDL_ReportAssertion user_handlers fuel) (Some l)
               else ret SDL_ASSERTION_IGNORE) ;;
     state <- match state with
              | SDL_ASSERTION_ALWAYS_IGNORE =>
                  modify (Some l) (set_AlwaysIgnore true) ;;
                  ret SDL_ASSERTION_IGNORE
              | SDL_ASSERTION_IGNORE
              | SDL_ASSERTION_RETRY
              | SDL_ASSERTION_BREAK => ret state
              | SDL_ASSERTION_ABORT => SDL_AbortAssertion ;; ret state
              end ;;
     ret state) (registered l fn file line w).
Proof.
  intros H. cbn [SDL_ReportAssertion]. cbn zeta.
  rewrite (bind_Done _ _ _ _ _ (load_at _ _ _ H)).
  change (0 + 1 >? 1) with false. cbv iota.
  assert (Hcap : forall (B : Type) (k : M B),
    ((if TriggerCount d =? 0
      then modify (Some l) (set_Function fn) ;;
           modify (Some l) (set_Filename file) ;;
           modify (Some l) (set_Linenum line)
      else ret tt) ;; k) w
    = k (with_heap (<[l := capture_location fn file line d]> (heap w)) w)).
  { intros B k. unfold capture_location.
    destruct (TriggerCount d =? 0).
    - unfold bind at 1.
      rewrite (modify_modify _ _ _ _ _ _ _ H).
      rewrite (bind_Done _ _ _ _ _ (modify_at _ _ _ _ H)).
      assert (H1 : heap (with_heap (<[l := set_Filename file (set_Function fn d)]> (heap w)) w) !! l
                   = Some (set_Filename file (set_Function fn d)))
        by (cbn; eapply lookup_updated, H).
      rewrite (modify_at _ _ _ _ H1). cbn [heap with_heap].
      now rewrite list_insert_insert_eq.
    - unfold bind, ret. rewrite list_insert_id by exact H.
      now rewrite with_heap_same. }
  rewrite Hcap. clear Hcap.
  set (w1 := with_heap (<[l := capture_location fn file line d]> (heap w)) w).
  assert (H1 : heap w1 !! l = Some (capture_location fn file line d))
    by (cbn; eapply lookup_updated, H).
  rewrite (bind_Done _ _ _ _ _ (AddAssertionToReport_at _ _ _ H1)).
  unfold ret at 1. unfold bind at 1.
  assert (Hw : (let d' := count_trigger (capture_location fn file line d) in
     if TriggerCount d' =? 1
     then with_triggeredAssertions (Some l)
            (with_heap (<[l:=set_Next (triggeredAssertions w1) d']> (heap w1)) w1)
     else with_heap (<[l:=d']> (heap w1)) w1) = registered l fn file line w).
  { unfold registered, registered_record. rewrite H. cbn zeta.
    subst w1. cbn [heap with_heap triggeredAssertions].
    rewrite !list_insert_insert_eq.
    destruct (TriggerCount (count_trigger (capture_location fn file line d)) =? 1) eqn:E.
    - cbn [TriggerCount set_Next]. rewrite E. reflexivity.
    - rewrite E. reflexivity. }
  cbv zeta in Hw. rewrite Hw. reflexivity.
Qed.


(** A record whose flag is set: the verdict is IGNORE, whatever the
    handlers are, and nothing changes but the registration. *)
Lemma ReportAssertion_flagged (fuel : nat) (l : loc) (d : SDL_AssertData)
    (fn file : string) (line : Z) (w : World) :
  heap w !! l = Some d -> AlwaysIgnore d = true ->
  SDL_ReportAssertion user_handlers (S fuel) (Some l) fn file line w
  = Done SDL_ASSERTION_IGNORE (registered l fn file line w).
Proof.
  intros H Hflag. rewrite (ReportAssertion_unfold _ _ _ _ _ _ _ H).
  rewrite (bind_Done _ _ _ _ _ (load_at _ _ _ (registered_lookup _ fn file line _ _ H))).
  rewrite registered_record_flag, Hflag. reflexivity.
Qed.

(** A record whose flag is clear: the handler is consulted in the world
    [registered], and a verdict to ignore always is turned into IGNORE
    with the flag set. *)
Lemma ReportAssertion_always_ignore (fuel : nat) (l : loc) (d d2 : SDL_AssertData)
    (fn file : string) (line : Z) (w w2 : World) :
  heap w !! l = Some d -> AlwaysIgnore d = false ->
  call_assertionHandler user_handlers (SDL_ReportAssertion user_handlers fuel)
    (Some l) (registered l fn file line w)
  = Done SDL_ASSERTION_ALWAYS_IGNORE w2 ->
  heap w2 !! l = Some d2 ->
  SDL_ReportAssertion user_handlers (S fuel) (Some l) fn file line w
  = Done SDL_ASSERTION_IGNORE
      (with_heap (<[l := set_AlwaysIgnore true d2]> (heap w2)) w2).
Proof.
  intros H Hflag Hverdict H2. rewrite (ReportAssertion_unfold _ _ _ _ _ _ _ H).
  rewrite (bind_Done _ _ _ _ _ (load_at _ _ _ (registered_lookup _ fn file line _ _ H))).
  rewrite registered_record_flag, Hflag. cbn [negb].
  rewrite (bind_Done _ _ _ _ _ Hverdict).
  unfold bind. rewrite (modify_at _ _ _ _ H2). reflexivity.
Qed.

(** A verdict that the caller acts on is passed on as the handler gave it. *)
Lemma ReportAssertion_passes_on (fuel : nat) (l : loc) (d : SDL_AssertData)
    (fn file : string) (line : Z) (w w2 : World) (state : SDL_AssertState) :
  heap w !! l = Some d -> AlwaysIgnore d = false ->
  call_assertionHandler user_handlers (SDL_ReportAssertion user_handlers fuel)
    (Some l) (registered l fn file line w)
  = Done state w2 ->
  state = SDL_ASSERTION_IGNORE \/ state = SDL_ASSERTION_RETRY
    \/ state = SDL_ASSERTION_BREAK ->
  SDL_ReportAssertion user_handlers (S fuel) (Some l) fn file line w
  = Done state w2.
Proof.
  intros H Hflag Hverdict Hstate. rewrite (ReportAssertion_unfold _ _ _ _ _ _ _ H).
  rewrite (bind_Done _ _ _ _ _ (load_at _ _ _ (registered_lookup _ fn file line _ _ H))).
  rewrite registered_record_flag, Hflag. cbn [negb].
  rewrite (bind_Done _ _ _ _ _ Hverdict).
  destruct Hstate as [-> | [-> | ->]]; reflexivity.
Qed.

Lemma report_repeatedly_flagged (fuel n : nat) (l : loc)
    (fn file : string) (line : Z) : forall (w : World) (d : SDL_AssertData),
  heap w !! l = Some d -> AlwaysIgnore d = true ->
  report_repeatedly user_handlers (S fuel) n (Some l) fn file line w
  = Done (repeat SDL_ASSERTION_IGNORE n) (Nat.iter n (registered l fn file line) w)
  /\ exists d', heap (Nat.iter n (registered l fn file line) w) !! l = Some d'
       /\ AlwaysIgnore d' = true.
Proof.
  induction n as [|n IH]; intros w d H Hflag.
  - split; [reflexivity|]. exists d. now split.
  - assert (H' := registered_lookup l fn file line w d H).
    assert (Hflag' : AlwaysIgnore (registered_record fn file line
                       (triggeredAssertions w) d) = true)
      by now rewrite registered_record_flag.
    destruct (IH _ _ H' Hflag') as [Hrun Hkeeps].
    rewrite Nat.iter_succ_r. split; [|exact Hkeeps].
    cbn [report_repeatedly].
    rewrite (bind_Done _ _ _ _ _ (ReportAssertion_flagged fuel _ _ fn file line _ H Hflag)).
    rewrite (bind_Done _ _ _ _ _ Hrun). reflexivity.
Qed.


End WithHandlers.

(** C5: when the handler's verdict for a record is ALWAYS_IGNORE, the
    engine returns IGNORE and sets the record's flag; and in any world in
    which the flag of the record is set, every further failure of the
    record resolves to IGNORE whatever the handlers are (none is
    consulted: nothing but the registration changes) and the flag stays,
    until [SDL_ResetAssertionReport] clears it with the list. *)
Theorem always_ignore_verdict_is_sticky (user_handlers : nat -> HandlerBody)
    (fuel : nat) (l : loc)
    (d d2 : SDL_AssertData) (fn file : string) (line : Z) (w w2 : World)
    (Hrecord : heap w !! l = Some d)
    (Hflag : AlwaysIgnore d = false)
    (Hverdict : call_assertionHandler user_handlers
                  (SDL_ReportAssertion user_handlers fuel) (Some l)
                  (registered l fn file line w)
                = Done SDL_ASSERTION_ALWAYS_IGNORE w2)
    (Hrecord2 : heap w2 !! l = Some d2) :
  let w3 := with_heap (<[l := set_AlwaysIgnore true d2]> (heap w2)) w2 in
  SDL_ReportAssertion user_handlers (S fuel) (Some l) fn file line w
    = Done SDL_ASSERTION_IGNORE w3 /\
  (exists d3, heap w3 !! l = Some d3 /\ AlwaysIgnore d3 = true) /\
  forall (other_handlers : nat -> HandlerBody) (fuel' n : nat)
         (fn' file' : string) (line' : Z) (w' : World) (d' : SDL_AssertData),
    heap w' !! l = Some d' -> AlwaysIgnore d' = true ->
    report_repeatedly other_handlers (S fuel') n (Some l) fn' file' line' w'
      = Done (repeat SDL_ASSERTION_IGNORE n)
             (Nat.iter n (registered l fn' file' line') w') /\
    (exists d'', heap (Nat.iter n (registered l fn' file' line') w') !! l = Some d''
       /\ AlwaysIgnore d'' = true) /\
    (heap_closed w' -> in_registry w' l ->
     exists w'' d'', SDL_ResetAssertionReport w' = Done tt w'' /\
       heap w'' !! l = Some d'' /\ AlwaysIgnore d'' = false).
Proof.
  intros w3. split; [|split].
  - now apply ReportAssertion_always_ignore with (d := d).
  - exists (set_AlwaysIgnore true d2). split; [|reflexivity].
    subst w3. cbn [heap with_heap]. eapply lookup_updated, Hrecord2.
  - intros other_handlers fuel' n fn' file' line' w' d' H' Hflag'.
    destruct (report_repeatedly_flagged other_handlers fuel' n l fn' file' line'
                w' d' H' Hflag') as [Hrun Hkeeps].
    split; [exact Hrun|]. split; [exact Hkeeps|].
    intros Hclosed Hin.
    destruct (ResetAssertionReport_spec w' Hclosed) as (h' & Hreset & _ & Hall).
    destruct (Hall l Hin) as (d'' & Hd'' & _ & Hclear & _).
    eexists. exists d''. split; [exact Hreset|]. split; [exact Hd''|exact Hclear].
Qed.


Lemma always_ignore_verdict_is_sticky_witness :
  let w := always_ignoring_World in
  let w2 := registered 0 "main.check" "main.go" 10 w in
  let w3 := with_heap
              (<[0%nat := set_AlwaysIgnore true
                            (registered_record "main.check" "main.go" 10 None
                               zero_AssertData)]> (heap w2)) w2 in
  SDL_ReportAssertion no_user_handlers 1 (Some 0%nat) "main.check" "main.go" 10 w
    = Done SDL_ASSERTION_IGNORE w3 /\
  report_repeatedly no_user_handlers 1 2 (Some 0%nat) "main.check" "main.go" 10 w3
    = Done [SDL_ASSERTION_IGNORE; SDL_ASSERTION_IGNORE]
           (Nat.iter 2 (registered 0 "main.check" "main.go" 10) w3).
Proof.
  intros w w2 w3.
  pose proof (always_ignore_verdict_is_sticky no_user_handlers 0 0
                zero_AssertData
                (registered_record "main.check" "main.go" 10 None zero_AssertData)
                "main.check" "main.go" 10 always_ignoring_World w2
                eq_refl eq_refl eq_refl eq_refl) as [Hfirst [_ Hlater]].
  split; [exact Hfirst|].
  exact (proj1 (Hlater no_user_handlers 0%nat 2%nat "main.check" "main.go" 10 w3
                  (set_AlwaysIgnore true
                     (registered_record "main.check" "main.go" 10 None zero_AssertData))
                  eq_refl eq_refl)).
Defined.

(** C7: [SDL_ResetAssertionReport] returns with the list empty and, for
    every record that was on it, the trigger count 0 and the flag false;
    the next failure of such a record is then a first trigger: the handler
    is consulted in a world where the record carries the location of this
    failure, has count 1 and is the only record of the list. *)
Theorem reset_then_first_trigger_again (user_handlers : nat -> HandlerBody)
    (w : World) (Hclosed : heap_closed w) :
  exists w', SDL_ResetAssertionReport w = Done tt w' /\
    triggeredAssertions w' = None /\
    (forall l, ~ in_registry w' l) /\
    forall l, in_registry w l ->
      exists d', heap w' !! l = Some d' /\
        TriggerCount d' = 0 /\ AlwaysIgnore d' = false /\
        forall (fuel : nat) (fn file : string) (line : Z),
          let w1 := registered l fn file line w' in
          (exists d1, heap w1 !! l = Some d1 /\
             Function d1 = fn /\ Filename d1 = file /\ Linenum d1 = line /\
             TriggerCount d1 = 1 /\ Next d1 = None) /\
          triggeredAssertions w1 = Some l /\
          in_registry w1 l /\
          SDL_ReportAssertion user_handlers (S fuel) (Some l) fn file line w'
          = (state <- call_assertionHandler user_handlers
                        (SDL_ReportAssertion user_handlers fuel) (Some l) ;;
             state <- match state with
                      | SDL_ASSERTION_ALWAYS_IGNORE =>
                          modify (Some l) (set_AlwaysIgnore true) ;;
                          ret SDL_ASSERTION_IGNORE
                      | SDL_ASSERTION_IGNORE
                      | SDL_ASSERTION_RETRY
                      | SDL_ASSERTION_BREAK => ret state
                      | SDL_ASSERTION_ABORT => SDL_AbortAssertion ;; ret state
                      end ;;
             ret state) w1.
Proof.
  destruct (ResetAssertionReport_spec w Hclosed) as (h' & Hrun & Hlen & Hall).
  exists (with_triggeredAssertions None (with_heap h' w)).
  split; [exact Hrun|]. split; [reflexivity|]. split.
  { intros l Hl. unfold in_registry in Hl. cbn in Hl. now apply reaches_nil in Hl. }
  intros l Hl. destruct (Hall l Hl) as (d' & Hd' & Hcount & Hflag & Hnext).
  exists d'. split; [exact Hd'|]. split; [exact Hcount|]. split; [exact Hflag|].
  intros fuel fn file line w1.
  set (w' := with_triggeredAssertions None (with_heap h' w)) in *.
  assert (Hd'' : heap w' !! l = Some d') by exact Hd'.
  destruct (registered_first l fn file line w' d' Hd'' Hcount)
    as (Hhead & d1 & Hd1 & Hfn & Hfile & Hline & Hone & Hnext1 & Hflag1 & _).
  split; [|split; [exact Hhead|split]].
  - exists d1. repeat split; assumption.
  - unfold in_registry. subst w1. rewrite Hhead. constructor.
  - rewrite (ReportAssertion_unfold _ _ _ _ _ _ _ _ Hd'').
    subst w1. rewrite (bind_Done _ _ _ _ _ (load_at _ _ _ Hd1)).
    rewrite Hflag1, Hflag. reflexivity.
Qed.

Lemma reset_then_first_trigger_again_witness :
  heap_closed two_failures_World /\
  exists w', SDL_ResetAssertionReport two_failures_World = Done tt w' /\
    triggeredAssertions w' = None /\
    exists d', heap w' !! 0%nat = Some d' /\ TriggerCount d' = 0.
Proof.
  assert (Hclosed : heap_closed two_failures_World).
  { split; [cbn; lia|]. repeat constructor; cbn; lia. }
  split; [exact Hclosed|].
  destruct (reset_then_first_trigger_again no_user_handlers two_failures_World Hclosed)
    as (w' & Hrun & Hnil & _ & Hrecords).
  exists w'. split; [exact Hrun|]. split; [exact Hnil|].
  assert (Hin : in_registry two_failures_World 0%nat).
  { unfold in_registry. cbn. eapply reaches_next; [reflexivity|]. cbn. constructor. }
  destruct (Hrecords 0%nat Hin) as (d' & Hd' & Hcount & _).
  exists d'. split; [exact Hd' | exact Hcount].
Defined.

(** C1, on the code: the same assertion failing twice at one call site
    leaves two records of that site on the list, each with count 1;
    [SDL_enabled_assert] makes a new record for every failure. *)
Theorem enabled_assert_registers_each_failure_anew :
  (forall depth rounds : nat,
     fail_twice (1 + depth) (1 + rounds) ignoring_World
     = Done tt two_failures_World) /\
  registry_list 3 (heap two_failures_World) (triggeredAssertions two_failures_World)
    = [1%nat; 0%nat] /\
  Forall (fun d => TriggerCount d = 1 /\
                   Function d = site_fn sample_site /\
                   Filename d = site_file sample_site /\
                   Linenum d = site_line sample_site)
         (heap two_failures_World).
Proof.
  split; [|split].
  - intros depth rounds. vm_compute. reflexivity.
  - reflexivity.
  - repeat constructor.
Qed.

(** C2, on the code: an assertion that fails inside the handler of
    another failure is not escalated.  The handler is consulted for the
    inner failure too, both reports return and the process goes on: it
    does not exit, with 42 or otherwise. *)
Theorem nested_failure_is_not_escalated :
  let outcome := SDL_assert nesting_handlers 2 1 outer_site false nesting_World in
  outcome
  = Done tt
      (mkWorld [mkAssertData false 1 "" "main.go" 3 "main.run" None;
                mkAssertData false 1 "" "app.go" 7 "app.onAssert" (Some 0%nat)]
               (Some 1%nat) (UserHandler 0) None 2 None []
               ["handler: main.run"; "handler: app.onAssert"] 0) /\
  (forall code w', outcome <> Exited code w') /\
  (forall depth rounds : nat,
     SDL_assert nesting_handlers (2 + depth) (1 + rounds) outer_site false nesting_World
     = outcome).
Proof.
  intros outcome.
  assert (Hrun : outcome
    = Done tt
      (mkWorld [mkAssertData false 1 "" "main.go" 3 "main.run" None;
                mkAssertData false 1 "" "app.go" 7 "app.onAssert" (Some 0%nat)]
               (Some 1%nat) (UserHandler 0) None 2 None []
               ["handler: main.run"; "handler: app.onAssert"] 0))
    by (subst outcome; vm_compute; reflexivity).
  split; [exact Hrun|]. split.
  - intros code w'. rewrite Hrun. discriminate.
  - intros depth rounds. subst outcome. vm_compute. reflexivity.
Qed.

(** The reentrancy counter is a variable of the call: it is 1 at the
    test in every call, so the test never fires.  A call ends the process
    only because the handler did, or because the handler's verdict was
    ABORT: never before the handler is consulted. *)
Lemma ReportAssertion_exits_only_after_handler (user_handlers : nat -> HandlerBody)
    (fuel : nat) (l : loc) (d : SDL_AssertData) (fn file : string) (line : Z)
    (w w' : World) (code : Z) :
  heap w !! l = Some d ->
  SDL_ReportAssertion user_handlers (S fuel) (Some l) fn file line w
    = Exited code w' ->
  AlwaysIgnore d = false /\
  (call_assertionHandler user_handlers (SDL_ReportAssertion user_handlers fuel)
     (Some l) (registered l fn file line w) = Exited code w'
   \/ (call_assertionHandler user_handlers (SDL_ReportAssertion user_handlers fuel)
         (Some l) (registered l fn file line w) = Done SDL_ASSERTION_ABORT w'
       /\ code = 42)).
Proof.
  intros H Hexit. rewrite (ReportAssertion_unfold _ _ _ _ _ _ _ _ H) in Hexit.
  rewrite (bind_Done _ _ _ _ _ (load_at _ _ _ (registered_lookup _ fn file line _ _ H)))
    in Hexit.
  rewrite registered_record_flag in Hexit.
  destruct (AlwaysIgnore d); [discriminate|]. split; [reflexivity|].
  cbn [negb] in Hexit. unfold bind at 1 in Hexit.
  destruct (call_assertionHandler user_handlers
              (SDL_ReportAssertion user_handlers fuel) (Some l)
              (registered l fn file line w)) as [state w2|c w2|msg w2|];
    try discriminate.
  - right. destruct state; try discriminate.
    + unfold bind, SDL_AbortAssertion, SDL_ExitProcess in Hexit.
      inversion Hexit; subst. split; reflexivity.
    + cbv [bind modify load ret] in Hexit.
      destruct (heap w2 !! l); discriminate.
  - left. exact Hexit.
Qed.

(** *** The default handler *)

Lemma prompt_loop_unrecognized (state : SDL_AssertState) :
  forall (input : list ScanLine) (err : list string),
  Forall unrecognized input ->
  prompt_loop state input err
  = (state, [], (err ++ repeat prompt_text (S (length input)))%list).
Proof.
  induction input as [|ln input IH]; intros err Hall.
  - reflexivity.
  - inversion Hall as [|? ? (buf & -> & Ha & Hb & Hr & Hi & HA) Hrest]; subst.
    cbn [prompt_loop].
    apply String.eqb_neq in Ha, Hb, Hr, Hi, HA.
    rewrite Ha, Hb, Hr, Hi, HA.
    rewrite (IH _ Hrest). cbn [length repeat].
    now rewrite <- app_assoc.
Qed.

(** C6, as stated, fails when the variable is set to the empty string:
    the variable is not unset, and the handler prompts. *)
Lemma PromptAssertion_prompts_on_empty_override :
  env_SDL_ASSERT empty_override_World = Some "" /\
  env_SDL_ASSERT empty_override_World <> None /\
  SDL_PromptAssertion None None empty_override_World
  = Done SDL_ASSERTION_IGNORE (with_stdio [] [prompt_text] empty_override_World).
Proof. split; [reflexivity|]. split; [discriminate|reflexivity]. Qed.

(** C6, amended: the default handler looks at SDL_ASSERT first.  One of
    abort, break, retry, ignore, always_ignore gives that verdict and any
    other non-empty value gives ABORT, in both cases without a prompt and
    without reading input.  When the variable is unset or empty the
    handler prompts, and when the input ends without an accepted answer
    the verdict is ABORT. *)
Theorem PromptAssertion_override_or_prompt (data : ptr) (u : userdata) (w : World) :
  (env_SDL_ASSERT w = Some "abort" ->
     SDL_PromptAssertion data u w = Done SDL_ASSERTION_ABORT w) /\
  (env_SDL_ASSERT w = Some "break" ->
     SDL_PromptAssertion data u w = Done SDL_ASSERTION_BREAK w) /\
  (env_SDL_ASSERT w = Some "retry" ->
     SDL_PromptAssertion data u w = Done SDL_ASSERTION_RETRY w) /\
  (env_SDL_ASSERT w = Some "ignore" ->
     SDL_PromptAssertion data u w = Done SDL_ASSERTION_IGNORE w) /\
  (env_SDL_ASSERT w = Some "always_ignore" ->
     SDL_PromptAssertion data u w = Done SDL_ASSERTION_ALWAYS_IGNORE w) /\
  (forall v, env_SDL_ASSERT w = Some v -> v <> "" ->
     v <> "abort" -> v <> "break" -> v <> "retry" -> v <> "ignore" ->
     v <> "always_ignore" ->
     SDL_PromptAssertion data u w = Done SDL_ASSERTION_ABORT w) /\
  (env_SDL_ASSERT w = None \/ env_SDL_ASSERT w = Some "" ->
     (exists state input err,
        SDL_PromptAssertion data u w = Done state (with_stdio input err w) /\
        prompt_loop SDL_ASSERTION_ABORT (stdin w) (stderr w) = (state, input, err) /\
        exists more, err = (stderr w ++ prompt_text :: more)%list) /\
     (Forall unrecognized (stdin w) ->
        SDL_PromptAssertion data u w
        = Done SDL_ASSERTION_ABORT
            (with_stdio [] (stderr w ++ repeat prompt_text (S (length (stdin w))))%list w))).
Proof.
  assert (Hset : forall v, env_SDL_ASSERT w = Some v -> v <> "" ->
            SDL_PromptAssertion data u w
            = if (v =? "abort")%string then Done SDL_ASSERTION_ABORT w
              else if (v =? "break")%string then Done SDL_ASSERTION_BREAK w
              else if (v =? "retry")%string then Done SDL_ASSERTION_RETRY w
              else if (v =? "ignore")%string then Done SDL_ASSERTION_IGNORE w
              else if (v =? "always_ignore")%string
                   then Done SDL_ASSERTION_ALWAYS_IGNORE w
              else Done SDL_ASSERTION_ABORT w).
  { intros v Hv Hne. unfold SDL_PromptAssertion, Getenv_SDL_ASSERT. rewrite Hv.
    apply String.eqb_neq in Hne. now rewrite Hne. }
  assert (Hprompt : env_SDL_ASSERT w = None \/ env_SDL_ASSERT w = Some "" ->
            SDL_PromptAssertion data u w
            = let '(state, input, err) :=
                prompt_loop SDL_ASSERTION_ABORT (stdin w) (stderr w) in
              Done state (with_stdio input err w)).
  { intros [Hv|Hv]; unfold SDL_PromptAssertion, Getenv_SDL_ASSERT; now rewrite Hv. }
  repeat split.
  - intros Hv. now rewrite (Hset _ Hv).
  - intros Hv. now rewrite (Hset _ Hv).
  - intros Hv. now rewrite (Hset _ Hv).
  - intros Hv. now rewrite (Hset _ Hv).
  - intros Hv. now rewrite (Hset _ Hv).
  - intros v Hv Hne Ha Hb Hr Hi HA. rewrite (Hset _ Hv Hne).
    apply String.eqb_neq in Ha, Hb, Hr, Hi, HA. now rewrite Ha, Hb, Hr, Hi, HA.
  - rewrite (Hprompt H).
    destruct (prompt_loop SDL_ASSERTION_ABORT (stdin w) (stderr w))
      as [[state input] err] eqn:Eloop.
    exists state, input, err. split; [reflexivity|]. split; [reflexivity|].
    clear -Eloop. revert Eloop. generalize (stderr w) as e0. generalize SDL_ASSERTION_ABORT as s0.
    induction (stdin w) as [|ln rest IH]; intros s0 e0 Eloop.
    + cbn in Eloop. injection Eloop as _ _ <-. now exists [].
    + cbn [prompt_loop] in Eloop. destruct ln as [buf|].
      * repeat match type of Eloop with
               | (if ?c then _ else _) = _ => destruct c
               end;
          try (injection Eloop as _ _ <-; now exists []).
        destruct (IH _ _ Eloop) as [more ->].
        exists (prompt_text :: more). now rewrite <- app_assoc.
      * injection Eloop as _ _ <-. now exists [].
  - intros Hall. rewrite (Hprompt H).
    now rewrite (prompt_loop_unrecognized _ _ _ Hall).
Qed.

Lemma PromptAssertion_override_or_prompt_witness :
  SDL_PromptAssertion None None ignoring_World = Done SDL_ASSERTION_IGNORE ignoring_World /\
  SDL_PromptAssertion None None (initial_World (Some "yes") [])
    = Done SDL_ASSERTION_ABORT (initial_World (Some "yes") []) /\
  SDL_PromptAssertion None None (initial_World None [Token "x"])
    = Done SDL_ASSERTION_ABORT
        (with_stdio [] [prompt_text; prompt_text] (initial_World None [Token "x"])).
Proof.
  split; [|split].
  - apply (PromptAssertion_override_or_prompt None None ignoring_World). reflexivity.
  - apply (PromptAssertion_override_or_prompt None None (initial_World (Some "yes") []))
      with (v := "yes"); (reflexivity || discriminate).
  - apply (PromptAssertion_override_or_prompt None None (initial_World None [Token "x"])).
    + left. reflexivity.
    + repeat constructor. exists "x". repeat split; discriminate.
Defined.

End AssertFacts.

(* ===================================================================== *)
(** * Further properties of the code *)
(* ===================================================================== *)

Section MoreBitsFacts.
Import MachineInt Bits.

Lemma land_pow2_pred (k : Z) : 0 <= k -> Z.land (2 ^ k) (2 ^ k - 1) = 0.
Proof.
  intros Hk. apply Z.bits_inj'. intros i Hi.
  rewrite Z.land_spec, Z.bits_0, Z.pow2_bits_eqb by lia.
  replace (2 ^ k - 1) with (Z.ones k) by (rewrite Z.ones_equiv; lia).
  destruct (Z.eqb_spec k i) as [<-|Hne]; [|reflexivity].
  rewrite Z.ones_spec_high by lia. reflexivity.
Qed.

Lemma land_pred_zero_pow2 (x : Z) :
  0 < x -> Z.land x (x - 1) = 0 -> x = 2 ^ Z.log2 x.
Proof.
  intros Hpos Hland.
  destruct (Z.log2_spec x Hpos) as [Hlo Hhi].
  destruct (Z.eq_dec x (2 ^ Z.log2 x)) as [Heq|Hne]; [exact Heq|exfalso].
  assert (Hlog : Z.log2 (x - 1) = Z.log2 x).
  { apply Z.log2_unique; [apply Z.log2_nonneg|]. lia. }
  assert (Hbx : Z.testbit x (Z.log2 x) = true) by (apply Z.bit_log2; lia).
  assert (Hbp : Z.testbit (x - 1) (Z.log2 x) = true).
  { rewrite <- Hlog. apply Z.bit_log2.
    pose proof (Z.pow_pos_nonneg 2 (Z.log2 x) ltac:(lia) (Z.log2_nonneg x)). lia. }
  assert (Hb : Z.testbit (Z.land x (x - 1)) (Z.log2 x) = true)
    by (rewrite Z.land_spec, Hbx, Hbp; reflexivity).
  rewrite Hland, Z.bits_0 in Hb. discriminate.
Qed.

(** A value with one bit set is the power of two of its logarithm. *)
Lemma one_bit_set_pow2_log2 (x : Z) :
  is_uint32 x -> SDL_HasExactlyOneBitSet32 x = true ->
  0 < x /\ 0 <= Z.log2 x < 32 /\ x = 2 ^ Z.log2 x.
Proof.
  intros [Hlo Hhi] H. unfold SDL_HasExactlyOneBitSet32 in H.
  apply andb_true_iff in H as [Hnz Hland].
  apply negb_true_iff, Z.eqb_neq in Hnz. apply Z.eqb_eq in Hland.
  rewrite Z.mod_small in Hland by lia.
  split; [lia|]. split.
  - split; [apply Z.log2_nonneg|]. apply Z.log2_lt_pow2; lia.
  - apply land_pred_zero_pow2; [lia|exact Hland].
Qed.

(** X1: [SDL_HasExactlyOneBitSet32] is true exactly on the powers of two
    that a uint32 holds: 1, 2, 4, ..., 2^31. *)
Theorem HasExactlyOneBitSet32_iff_power_of_two (x : Z) (Hx : is_uint32 x) :
  SDL_HasExactlyOneBitSet32 x = true <-> exists k, 0 <= k < 32 /\ x = 2 ^ k.
Proof.
  split.
  - intros H. destruct (one_bit_set_pow2_log2 x Hx H) as (_ & Hk & Hxk).
    exists (Z.log2 x). now split.
  - intros (k & [Hk0 Hk32] & ->). unfold SDL_HasExactlyOneBitSet32.
    assert (0 < 2 ^ k) by (apply Z.pow_pos_nonneg; lia).
    assert (2 ^ k < 2 ^ 32) by (apply Z.pow_lt_mono_r; lia).
    apply andb_true_iff. split.
    + apply negb_true_iff, Z.eqb_neq. lia.
    + apply Z.eqb_eq. rewrite Z.mod_small by lia. now apply land_pow2_pred.
Qed.

Lemma HasExactlyOneBitSet32_iff_power_of_two_witness :
  is_uint32 64 /\ SDL_HasExactlyOneBitSet32 64 = true.
Proof.
  assert (H : is_uint32 64) by (unfold is_uint32; lia).
  split; [exact H|].
  apply (HasExactlyOneBitSet32_iff_power_of_two 64 H).
  exists 6. split; [lia|reflexivity].
Defined.

(** X2: when [SDL_HasExactlyOneBitSet32] accepts a value,
    [SDL_MostSignificantBitIndex32] locates that bit: the value is 2 to
    the power of the returned index minus one. *)
Theorem one_bit_set_is_at_MostSignificantBitIndex32 (x : Z) (Hx : is_uint32 x)
    (Hone : SDL_HasExactlyOneBitSet32 x = true) :
  1 <= SDL_MostSignificantBitIndex32 x <= 32 /\
  x = 2 ^ (SDL_MostSignificantBitIndex32 x - 1).
Proof.
  destruct (one_bit_set_pow2_log2 x Hx Hone) as (Hpos & Hk & Hxk).
  unfold SDL_MostSignificantBitIndex32.
  destruct (Z.eqb_spec x 0) as [?|_]; [lia|].
  rewrite (Len32_log2 x Hx) by lia.
  split; [lia|]. now replace (Z.log2 x + 1 - 1) with (Z.log2 x) by lia.
Qed.

Lemma one_bit_set_is_at_MostSignificantBitIndex32_witness :
  is_uint32 1024 /\ 1024 = 2 ^ (SDL_MostSignificantBitIndex32 1024 - 1).
Proof.
  assert (H : is_uint32 1024) by (unfold is_uint32; lia).
  split; [exact H|].
  apply (one_bit_set_is_at_MostSignificantBitIndex32 1024 H). reflexivity.
Defined.

(** X3: [SDL_MostSignificantBitIndex32] never decreases when its
    argument grows, and doubling a nonzero argument that still fits in 32
    bits adds one to it. *)
Theorem MostSignificantBitIndex32_monotone (x y : Z)
    (Hx : is_uint32 x) (Hy : is_uint32 y) (Hle : x <= y) :
  SDL_MostSignificantBitIndex32 x <= SDL_MostSignificantBitIndex32 y /\
  (0 < x -> 2 * x < 2 ^ 32 ->
     SDL_MostSignificantBitIndex32 (2 * x) = SDL_MostSignificantBitIndex32 x + 1).
Proof.
  pose proof Hx as [Hx0 Hx32]. pose proof Hy as [Hy0 Hy32].
  unfold SDL_MostSignificantBitIndex32. split.
  - destruct (Z.eqb_spec x 0) as [->|Hxn], (Z.eqb_spec y 0) as [->|Hyn]; try lia.
    + rewrite (Len32_log2 y Hy Hyn). pose proof (Z.log2_nonneg y). lia.
    + rewrite (Len32_log2 x Hx Hxn), (Len32_log2 y Hy Hyn).
      pose proof (Z.log2_le_mono x y Hle). lia.
  - intros Hpos Hdouble.
    destruct (Z.eqb_spec x 0) as [?|Hxn]; [lia|].
    destruct (Z.eqb_spec (2 * x) 0) as [?|Hdn]; [lia|].
    rewrite (Len32_log2 x Hx Hxn).
    rewrite (Len32_log2 (2 * x)) by (unfold is_uint32; lia).
    rewrite Z.log2_double by lia. lia.
Qed.

Lemma MostSignificantBitIndex32_monotone_witness :
  SDL_MostSignificantBitIndex32 5 <= SDL_MostSignificantBitIndex32 300 /\
  SDL_MostSignificantBitIndex32 (2 * 5) = SDL_MostSignificantBitIndex32 5 + 1.
Proof.
  assert (H5 : is_uint32 5) by (unfold is_uint32; lia).
  assert (H300 : is_uint32 300) by (unfold is_uint32; lia).
  destruct (MostSignificantBitIndex32_monotone 5 300 H5 H300 ltac:(lia))
    as [Hmono Hdouble].
  split; [exact Hmono|]. apply Hdouble; lia.
Defined.

End MoreBitsFacts.

Section MoreAtomicFacts.
Import MachineInt Atomic.

Lemma wrap32_add_l (a b : Z) : wrap32 (wrap32 a + b) = wrap32 (a + b).
Proof.
  unfold wrap32, wrap_signed.
  replace ((a + 2 ^ (32 - 1)) mod 2 ^ 32 - 2 ^ (32 - 1) + b + 2 ^ (32 - 1))
    with ((a + 2 ^ (32 - 1)) mod 2 ^ 32 + b) by lia.
  rewrite Z.add_mod_idemp_l by lia.
  now replace (a + 2 ^ (32 - 1) + b) with (a + b + 2 ^ (32 - 1)) by lia.
Qed.

Lemma wrap32_add_r (a b : Z) : wrap32 (a + wrap32 b) = wrap32 (a + b).
Proof. rewrite (Z.add_comm a), wrap32_add_l. now rewrite Z.add_comm. Qed.

Lemma Lock_eta (spins : nat) (l : SDL_SpinLock) :
  Lock spins {| lock := lock l |} = Lock spins l.
Proof. now destruct l. Qed.

(** X4: [Lock] takes a free lock at its first attempt and then holds it;
    on a lock that is held, and that nobody releases, it never returns:
    every bound on its retries is used up. *)
Theorem Lock_acquires_free_spins_on_held (l : SDL_SpinLock) (spins : nat) :
  (lock l = 0 ->
     Lock (S spins) l = Some {| lock := 1 |} /\
     TryLock {| lock := 1 |} = (false, {| lock := 1 |})) /\
  (lock l <> 0 -> Lock spins l = None).
Proof.
  split.
  - intros Hfree. split; [|reflexivity].
    cbn [Lock]. unfold CompareAndSwap. rewrite Hfree. reflexivity.
  - intros Hheld. induction spins as [|k IH]; [reflexivity|].
    cbn [Lock]. unfold CompareAndSwap.
    destruct (Z.eqb_spec (lock l) 0) as [?|_]; [contradiction|].
    cbn [negb]. now rewrite Lock_eta.
Qed.

Lemma Lock_acquires_free_spins_on_held_witness :
  Lock 1 {| lock := 0 |} = Some {| lock := 1 |} /\
  Lock 1000 {| lock := 1 |} = None.
Proof.
  split.
  - apply (Lock_acquires_free_spins_on_held {| lock := 0 |} 0). reflexivity.
  - apply (Lock_acquires_free_spins_on_held {| lock := 1 |} 1000). simpl. lia.
Defined.

(** X5: a compare-and-swap succeeds exactly when the variable holds
    [oldval]; it then holds [newval], and otherwise is left as it was.
    After a success that changed the value, the same call again fails. *)
Theorem AtomicCompareAndSwap_succeeds_iff_equal (a : SDL_AtomicInt)
    (oldval newval : Z) :
  let r := SDL_AtomicCompareAndSwap a oldval newval in
  (fst r = true <-> value a = oldval) /\
  (fst r = true -> snd r = {| value := newval |}) /\
  (fst r = false -> snd r = a) /\
  (value (snd r) <> value a <-> value a = oldval /\ oldval <> newval) /\
  (fst r = true -> oldval <> newval ->
     SDL_AtomicCompareAndSwap (snd r) oldval newval = (false, snd r)).
Proof.
  destruct a as [v]. unfold SDL_AtomicCompareAndSwap, CompareAndSwap. cbn [value].
  destruct (Z.eqb_spec v oldval) as [Heq|Hne]; cbn [fst snd value].
  - subst v. split; [easy|]. split; [easy|]. split; [easy|]. split.
    + split; [intros H; split; [reflexivity|lia] | intros [_ H]; lia].
    + intros _ Hne. destruct (Z.eqb_spec newval oldval) as [?|_]; [lia|reflexivity].
  - split; [easy|]. split; [easy|]. split; [easy|]. split; [|easy].
    split; [intros H; lia | intros [H _]; contradiction].
Qed.

Lemma AtomicCompareAndSwap_succeeds_iff_equal_witness :
  SDL_AtomicCompareAndSwap {| value := 5 |} 5 9 = (true, {| value := 9 |}) /\
  SDL_AtomicCompareAndSwap {| value := 9 |} 5 9 = (false, {| value := 9 |}).
Proof.
  pose proof (AtomicCompareAndSwap_succeeds_iff_equal {| value := 5 |} 5 9)
    as (_ & _ & _ & _ & Hstale).
  split; [reflexivity|].
  apply Hstale; [reflexivity|lia].
Defined.

(** X6: a reference taken and given back leaves the counter as it was,
    for every int32 value (at the largest the two wrap-arounds cancel),
    and [SDL_AtomicDecRef] then reports the last reference exactly when
    the counter was 0 before. *)
Theorem AtomicIncRef_then_DecRef_restores (a : SDL_AtomicInt)
    (Ha : is_int32 (value a)) :
  snd (SDL_AtomicDecRef (SDL_AtomicIncRef a)) = a /\
  (fst (SDL_AtomicDecRef (SDL_AtomicIncRef a)) = true <-> value a = 0).
Proof.
  destruct a as [v]. cbn [value] in Ha.
  unfold SDL_AtomicDecRef, SDL_AtomicIncRef, SDL_AtomicAdd, AddInt32.
  cbn [fst snd value]. split.
  - f_equal. rewrite wrap32_add_l. replace (v + 1 + -1) with v by lia.
    now apply wrap32_id.
  - unfold is_int32, int32_min, int32_max in Ha.
    destruct (Z.eq_dec v (2 ^ 31 - 1)) as [->|Hne].
    + split; [vm_compute; discriminate | lia].
    + rewrite wrap32_id by (unfold is_int32, int32_min, int32_max; lia).
      rewrite Z.eqb_eq. lia.
Qed.

Lemma AtomicIncRef_then_DecRef_restores_witness :
  snd (SDL_AtomicDecRef (SDL_AtomicIncRef {| value := 2147483647 |}))
  = {| value := 2147483647 |}.
Proof.
  apply (AtomicIncRef_then_DecRef_restores {| value := 2147483647 |}).
  unfold is_int32, int32_min, int32_max. simpl. lia.
Defined.

(** X7: [SDL_AtomicAdd] returns the value before the call and leaves an
    int32; two additions in a row leave what one addition of the int32
    sum leaves. *)
Theorem AtomicAdd_twice_is_add_of_sum (a : SDL_AtomicInt) (v1 v2 : Z) :
  let r1 := SDL_AtomicAdd a v1 in
  let r2 := SDL_AtomicAdd (snd r1) v2 in
  fst r1 = value a /\
  fst r2 = wrap32 (value a + v1) /\
  is_int32 (value (snd r2)) /\
  snd r2 = snd (SDL_AtomicAdd a (wrap32 (v1 + v2))).
Proof.
  destruct a as [v]. unfold SDL_AtomicAdd, AddInt32. cbn [fst snd value].
  repeat split; try apply wrap32_range.
  f_equal. rewrite wrap32_add_l, wrap32_add_r. f_equal. lia.
Qed.

End MoreAtomicFacts.

Section MoreAssertFacts.
Import MachineInt Assert.

(** *** One failure under the default handler *)

(** The record that [SDL_enabled_assert] makes, once it is allocated. *)
Lemma lookup_allocated (h : list SDL_AssertData) (d : SDL_AssertData) :
  (h ++ [d])%list !! length h = Some d.
Proof. now rewrite list_lookup_middle. Qed.

(** What registration makes of the world with the new record. *)
Lemma registered_allocated (site : CallSite) (w : World) :
  registered (length (heap w)) (site_fn site) (site_file site) (site_line site)
    (with_heap (heap w ++ [zero_AssertData])%list w)
  = one_more_failure site w.
Proof.
  unfold registered. cbn [heap with_heap]. rewrite lookup_allocated. cbv zeta.
  unfold registered_record, count_trigger, capture_location, zero_AssertData.
  cbn [TriggerCount set_Linenum set_Filename set_Function set_TriggerCount set_Next].
  change (0 =? 0) with true. cbv iota.
  cbn [TriggerCount set_Linenum set_Filename set_Function set_TriggerCount set_Next].
  change (wrap_int (0 + 1)) with 1. change (1 =? 1) with true. cbv iota.
  unfold one_more_failure. cbn.
  rewrite insert_app_r_alt by lia. rewrite Nat.sub_diag. reflexivity.
Qed.

Section WithHandlers.

Variable user_handlers : nat -> HandlerBody.

(** One round of [SDL_enabled_assert] up to the verdict: under the
    default handler with an override [v], the report is made on a new
    record and the handler answers without a prompt. *)
Lemma enabled_assert_report_override (fuel : nat) (site : CallSite) (w : World)
    (v : string) (verdict : SDL_AssertState) :
  assertionHandler w = PromptAssertion ->
  SDL_PromptAssertion (Some (length (heap w))) (assertionData w)
    (one_more_failure site w) = Done verdict (one_more_failure site w) ->
  forall (B : Type) (k : SDL_AssertState -> M B),
  (sdl_assert_data <- alloc zero_AssertData ;;
   state <- SDL_ReportAssertion user_handlers (S fuel) sdl_assert_data
              (site_fn site) (site_file site) (site_line site) ;;
   k state) w
  = (state <- (fun w1 =>
                 match verdict with
                 | SDL_ASSERTION_ABORT => Exited 42 w1
                 | SDL_ASSERTION_ALWAYS_IGNORE =>
                     Done SDL_ASSERTION_IGNORE
                       (with_heap
                          (<[length (heap w) :=
                               mkAssertData true 1 "" (site_file site)
                                 (site_line site) (site_fn site)
                                 (triggeredAssertions w)]> (heap w1)) w1)
                 | _ => Done verdict w1
                 end) ;;
     k state) (one_more_failure site w).
Proof.
  intros Hh Hprompt B k.
  set (w0 := with_heap (heap w ++ [zero_AssertData])%list w).
  rewrite (bind_Done (alloc zero_AssertData) _ w w0 (Some (length (heap w))) eq_refl).
  assert (H0 : heap w0 !! length (heap w) = Some zero_AssertData)
    by apply lookup_allocated.
  unfold bind at 1.
  rewrite (ReportAssertion_unfold _ _ _ _ _ _ _ _ H0).
  subst w0. rewrite registered_allocated.
  set (w1 := one_more_failure site w).
  assert (H1 : heap w1 !! length (heap w)
               = Some (mkAssertData false 1 "" (site_file site) (site_line site)
                         (site_fn site) (triggeredAssertions w)))
    by (subst w1; unfold one_more_failure; cbn; apply lookup_allocated).
  rewrite (bind_Done _ _ _ _ _ (load_at _ _ _ H1)).
  cbn [AlwaysIgnore negb].
  assert (Hcall : call_assertionHandler user_handlers
                    (SDL_ReportAssertion user_handlers fuel)
                    (Some (length (heap w))) w1 = Done verdict w1).
  { unfold call_assertionHandler. subst w1. cbn [assertionHandler one_more_failure
      with_triggeredAssertions with_heap assertionData]. rewrite Hh. exact Hprompt. }
  rewrite (bind_Done _ _ _ _ _ Hcall).
  unfold bind at 2.
  destruct verdict; try reflexivity.
  unfold bind. rewrite (modify_at _ _ _ _ H1). reflexivity.
Qed.


Lemma PromptAssertion_at_one_more_failure (site : CallSite) (w : World)
    (data : ptr) (u : userdata) :
  SDL_PromptAssertion data u (one_more_failure site w)
  = match SDL_PromptAssertion data u w with
    | Done s w' =>
        Done s (with_stdio (stdin w') (stderr w') (one_more_failure site w))
    | other => other
    end.
Proof.
  unfold SDL_PromptAssertion, Getenv_SDL_ASSERT. cbn [env_SDL_ASSERT one_more_failure
    with_triggeredAssertions with_heap stdin stderr].
  cbv zeta.
  destruct (negb _); [repeat (destruct (_ =? _)%string; [reflexivity|]); reflexivity|].
  destruct (prompt_loop _ _ _) as [[s i] e]. reflexivity.
Qed.

(** X8: under the default handler with the override [ignore], [break] or
    [always_ignore], a failing [SDL_enabled_assert] returns after one
    round, having put one new record with count 1 in front of the list;
    for [break] it traps once, for [always_ignore] the flag of the new
    record is set.  The input and the error stream are not touched. *)
Theorem enabled_assert_survivable_override (fuel rounds : nat) (site : CallSite)
    (w : World) (Hhandler : assertionHandler w = PromptAssertion) :
  (env_SDL_ASSERT w = Some "ignore" ->
     SDL_enabled_assert user_handlers (S fuel) (S rounds) site false w
     = Done tt (one_more_failure site w)) /\
  (env_SDL_ASSERT w = Some "break" ->
     SDL_enabled_assert user_handlers (S fuel) (S rounds) site false w
     = Done tt (with_breakpoints (S (breakpoints w)) (one_more_failure site w))) /\
  (env_SDL_ASSERT w = Some "always_ignore" ->
     SDL_enabled_assert user_handlers (S fuel) (S rounds) site false w
     = Done tt
         (with_heap
            (heap w ++ [mkAssertData true 1 "" (site_file site) (site_line site)
                          (site_fn site) (triggeredAssertions w)])%list
            (one_more_failure site w))).
Proof.
  assert (Hp : forall v s, env_SDL_ASSERT w = Some v ->
            (forall d u, SDL_PromptAssertion d u w = Done s w) ->
            SDL_PromptAssertion (Some (length (heap w))) (assertionData w)
              (one_more_failure site w) = Done s (one_more_failure site w)).
  { intros v s Hv Hs. rewrite PromptAssertion_at_one_more_failure, Hs.
    reflexivity. }
  unfold SDL_enabled_assert. cbn [SDL_enabled_assert_with negb].
  split; [|split]; intros Henv.
  - rewrite (enabled_assert_report_override fuel site w "ignore"
               SDL_ASSERTION_IGNORE Hhandler).
    + reflexivity.
    + apply (Hp "ignore"); [exact Henv|]. intros d u.
      unfold SDL_PromptAssertion, Getenv_SDL_ASSERT. now rewrite Henv.
  - rewrite (enabled_assert_report_override fuel site w "break"
               SDL_ASSERTION_BREAK Hhandler).
    + reflexivity.
    + apply (Hp "break"); [exact Henv|]. intros d u.
      unfold SDL_PromptAssertion, Getenv_SDL_ASSERT. now rewrite Henv.
  - rewrite (enabled_assert_report_override fuel site w "always_ignore"
               SDL_ASSERTION_ALWAYS_IGNORE Hhandler).
    + unfold bind, ret. unfold one_more_failure at 1 2.
      cbn [heap with_heap with_triggeredAssertions].
      rewrite insert_app_r_alt by lia. rewrite Nat.sub_diag. reflexivity.
    + apply (Hp "always_ignore"); [exact Henv|]. intros d u.
      unfold SDL_PromptAssertion, Getenv_SDL_ASSERT. now rewrite Henv.
Qed.

(** X9: under the default handler with the override [abort], or with
    any other non-empty value that is not one of the five, a failing
    [SDL_enabled_assert] ends the process with status 42; the failure is
    on the list when it does. *)
Theorem enabled_assert_abort_override_exits_42 (fuel rounds : nat)
    (site : CallSite) (w : World) (v : string)
    (Hhandler : assertionHandler w = PromptAssertion)
    (Henv : env_SDL_ASSERT w = Some v)
    (Hv : v <> "" /\ v <> "break" /\ v <> "retry" /\ v <> "ignore"
          /\ v <> "always_ignore") :
  SDL_enabled_assert user_handlers (S fuel) (S rounds) site false w
    = Exited 42 (one_more_failure site w) /\
  in_registry (one_more_failure site w) (length (heap w)).
Proof.
  destruct Hv as (Hne & Hb & Hr & Hi & HA).
  split.
  - unfold SDL_enabled_assert. cbn [SDL_enabled_assert_with negb].
    rewrite (enabled_assert_report_override fuel site w v
               SDL_ASSERTION_ABORT Hhandler); [reflexivity|].
    rewrite PromptAssertion_at_one_more_failure.
    assert (Hs : SDL_PromptAssertion (Some (length (heap w))) (assertionData w) w
                 = Done SDL_ASSERTION_ABORT w).
    { unfold SDL_PromptAssertion, Getenv_SDL_ASSERT. rewrite Henv.
      apply String.eqb_neq in Hne, Hb, Hr, Hi, HA. rewrite Hne, Hb, Hr, Hi, HA.
      cbn [negb]. now destruct (v =? "abort")%string. }
    rewrite Hs. reflexivity.
  - unfold in_registry, one_more_failure. cbn. constructor.
Qed.

(** X10: [SDL_enabled_assert] tests the boolean it was given, not the
    condition, so a verdict to retry can never end its loop: under the
    default handler with the override [retry] a failing assertion never
    returns, whatever bound is put on its rounds. *)
Theorem enabled_assert_retry_never_returns (fuel : nat) (site : CallSite) :
  forall (rounds : nat) (w : World),
  assertionHandler w = PromptAssertion ->
  env_SDL_ASSERT w = Some "retry" ->
  SDL_enabled_assert user_handlers (S fuel) rounds site false w = OutOfFuel.
Proof.
  unfold SDL_enabled_assert.
  induction rounds as [|k IH]; intros w Hhandler Henv; [reflexivity|].
  cbn [SDL_enabled_assert_with negb].
  rewrite (enabled_assert_report_override fuel site w "retry"
             SDL_ASSERTION_RETRY Hhandler).
  - unfold bind at 1. apply IH; [exact Hhandler | exact Henv].
  - rewrite PromptAssertion_at_one_more_failure.
    assert (Hs : SDL_PromptAssertion (Some (length (heap w))) (assertionData w) w
                 = Done SDL_ASSERTION_RETRY w)
      by (unfold SDL_PromptAssertion, Getenv_SDL_ASSERT; now rewrite Henv).
    rewrite Hs. reflexivity.
Qed.

End WithHandlers.

Lemma enabled_assert_survivable_override_witness :
  SDL_enabled_assert no_user_handlers 1 1 sample_site false ignoring_World
  = Done tt (one_more_failure sample_site ignoring_World).
Proof.
  apply (enabled_assert_survivable_override no_user_handlers 0 0 sample_site
           ignoring_World eq_refl). reflexivity.
Defined.

Lemma enabled_assert_abort_override_exits_42_witness :
  SDL_enabled_assert no_user_handlers 1 1 sample_site false
    (initial_World (Some "yes") [])
  = Exited 42 (one_more_failure sample_site (initial_World (Some "yes") [])).
Proof.
  apply (enabled_assert_abort_override_exits_42 no_user_handlers 0 0 sample_site
           (initial_World (Some "yes") []) "yes" eq_refl eq_refl).
  repeat split; discriminate.
Defined.

Lemma enabled_assert_retry_never_returns_witness :
  SDL_enabled_assert no_user_handlers 1 50 sample_site false
    (initial_World (Some "retry") []) = OutOfFuel.
Proof.
  apply (enabled_assert_retry_never_returns no_user_handlers 0 sample_site 50
           (initial_World (Some "retry") [])); reflexivity.
Defined.

End MoreAssertFacts.

Section RegistryFacts.
Import MachineInt Assert.

(** Reachability only looks at the [Next] fields. *)
Lemma reaches_same_next (h h' : list SDL_AssertData) :
  (forall x d', h' !! x = Some d' -> exists d, h !! x = Some d /\ Next d = Next d') ->
  forall p l, reaches h' p l -> reaches h p l.
Proof.
  intros Hnext p l Hr. induction Hr as [x | x d' l' Hd' Hr IH].
  - constructor.
  - destruct (Hnext x d' Hd') as (d & Hd & Hn).
    apply reaches_next with d; [exact Hd|]. now rewrite Hn.
Qed.

(** A walk that does not meet [l] does not see changes made at [l]. *)
Lemma reaches_avoiding (h h' : list SDL_AssertData) (l : nat) :
  (forall x, x <> l -> h' !! x = h !! x) ->
  forall p l', reaches h p l' -> ~ reaches h p l -> reaches h' p l'.
Proof.
  intros Hsame p l' Hr. induction Hr as [x | x d l' Hd Hr IH]; intros Hnot.
  - constructor.
  - assert (Hx : x <> l) by (intros ->; apply Hnot; constructor).
    apply reaches_next with d; [now rewrite Hsame|].
    apply IH. intros Hr'. apply Hnot. now apply reaches_next with d.
Qed.

Lemma reaches_avoiding_back (h h' : list SDL_AssertData) (l : nat) :
  (forall x, x <> l -> h' !! x = h !! x) ->
  forall p l', reaches h' p l' -> ~ reaches h p l -> reaches h p l'.
Proof.
  intros Hsame p l' Hr. induction Hr as [x | x d l' Hd Hr IH]; intros Hnot.
  - constructor.
  - assert (Hx : x <> l) by (intros ->; apply Hnot; constructor).
    rewrite Hsame in Hd by exact Hx.
    apply reaches_next with d; [exact Hd|].
    apply IH. intros Hr'. apply Hnot. now apply reaches_next with d.
Qed.

(** A record put in front of a list it was not on. *)
Lemma reaches_link_front (h : list SDL_AssertData) (l : nat) (d1 : SDL_AssertData)
    (head : option nat) :
  (l < length h)%nat -> Next d1 = head -> ~ reaches h head l ->
  forall l', reaches (<[l := d1]> h) (Some l) l' <-> l' = l \/ reaches h head l'.
Proof.
  intros Hl Hnext Hnot l'.
  assert (Hother : forall x, x <> l -> <[l := d1]> h !! x = h !! x)
    by (intros x Hx; now rewrite list_lookup_insert_ne).
  split.
  - intros Hr. inversion Hr as [|? d' ? Hd' Hr']; subst; [now left|right].
    rewrite list_lookup_insert_eq in Hd' by exact Hl. injection Hd' as <-.
    now apply (reaches_avoiding_back _ _ l Hother) in Hr'.
  - intros [->|Hr]; [constructor|].
    apply reaches_next with d1; [now apply list_lookup_insert_eq|].
    rewrite Hnext. now apply (reaches_avoiding _ _ l Hother).
Qed.

Lemma count_becomes_one (c : Z) : is_int c -> (wrap_int (c + 1) =? 1) = (c =? 0).
Proof.
  intros Hc. unfold is_int, int_min, int_max in Hc.
  destruct (Z.eq_dec c (2 ^ 63 - 1)) as [->|Hne]; [reflexivity|].
  rewrite wrap_int_id by (unfold is_int, int_min, int_max; lia).
  destruct (Z.eqb_spec (c + 1) 1), (Z.eqb_spec c 0); lia || reflexivity.
Qed.

(** X11: [SDL_AddAssertionToReport] counts the failure and touches no
    other record.  A record with count 0 that is not on the list becomes
    its head and the list keeps all it had; a record with another count
    is only counted, and the list stays as it is. *)
Theorem AddAssertionToReport_links_on_first_count (l : nat) (d : SDL_AssertData)
    (w : World) (Hd : heap w !! l = Some d) (Hint : is_int (TriggerCount d)) :
  exists w', SDL_AddAssertionToReport (Some l) w = Done tt w' /\
    (exists d', heap w' !! l = Some d' /\
       TriggerCount d' = wrap_int (TriggerCount d + 1)) /\
    (forall x, x <> l -> heap w' !! x = heap w !! x) /\
    (TriggerCount d = 0 -> ~ in_registry w l ->
       triggeredAssertions w' = Some l /\
       forall l', in_registry w' l' <-> l' = l \/ in_registry w l') /\
    (TriggerCount d <> 0 ->
       triggeredAssertions w' = triggeredAssertions w /\
       forall l', in_registry w' l' <-> in_registry w l').
Proof.
  pose proof (lookup_lt_Some _ _ _ Hd) as Hl.
  eexists. split; [apply (AddAssertionToReport_at _ _ _ Hd)|]. cbv zeta.
  assert (Hc : (TriggerCount (count_trigger d) =? 1) = (TriggerCount d =? 0))
    by apply (count_becomes_one _ Hint).
  rewrite Hc.
  destruct (Z.eqb_spec (TriggerCount d) 0) as [H0|Hn0]; cbv iota;
    unfold in_registry;
    cbn [heap with_heap with_triggeredAssertions triggeredAssertions].
  - (* first count *)
    set (d1 := set_Next (triggeredAssertions w) (count_trigger d)).
    split; [|split; [|split]].
    + exists d1. split; [now apply list_lookup_insert_eq | reflexivity].
    + intros x Hx. now rewrite list_lookup_insert_ne.
    + intros _ Hnot. split; [reflexivity|].
      now apply reaches_link_front.
    + intros Hne. contradiction.
  - (* counted again *)
    split; [|split; [|split]].
    + exists (count_trigger d). split; [now apply list_lookup_insert_eq | reflexivity].
    + intros x Hx. now rewrite list_lookup_insert_ne.
    + intros H0. contradiction.
    + intros _. split; [reflexivity|]. intros l'.
      split; apply reaches_same_next; intros x d' Hd'.
      * destruct (decide (x = l)) as [->|Hx].
        -- rewrite list_lookup_insert_eq in Hd' by exact Hl. injection Hd' as <-.
           exists d. now split.
        -- rewrite list_lookup_insert_ne in Hd' by congruence. now exists d'.
      * destruct (decide (x = l)) as [->|Hx].
        -- exists (count_trigger d). split; [now apply list_lookup_insert_eq|].
           rewrite Hd in Hd'. now injection Hd' as <-.
        -- exists d'. split; [now rewrite list_lookup_insert_ne | reflexivity].
Qed.

Lemma AddAssertionToReport_links_on_first_count_witness :
  exists w', SDL_AddAssertionToReport (Some 0%nat) always_ignoring_World = Done tt w' /\
    triggeredAssertions w' = Some 0%nat.
Proof.
  assert (Hint : is_int (TriggerCount zero_AssertData))
    by (unfold is_int, int_min, int_max; simpl; lia).
  destruct (AddAssertionToReport_links_on_first_count 0 zero_AssertData
              always_ignoring_World eq_refl Hint)
    as (w' & Hrun & _ & _ & Hfirst & _).
  exists w'. split; [exact Hrun|].
  apply Hfirst; [reflexivity|].
  intros Hr. unfold in_registry in Hr. cbn in Hr. inversion Hr.
Defined.


(** *** The same record failing again and again *)

Lemma registered_keeps_surroundings (l : nat) (fn file : string) (line : Z)
    (w : World) :
  assertionHandler (registered l fn file line w) = assertionHandler w /\
  assertionData (registered l fn file line w) = assertionData w /\
  env_SDL_ASSERT (registered l fn file line w) = env_SDL_ASSERT w /\
  stdin (registered l fn file line w) = stdin w /\
  stderr (registered l fn file line w) = stderr w.
Proof.
  unfold registered. destruct (heap w !! l); [|now repeat split].
  cbv zeta. destruct (_ =? 1); now repeat split.
Qed.

(** With the override [ignore] the default handler leaves the world that
    registration made, whether the flag is set or not. *)
Lemma ReportAssertion_ignore_override (user_handlers : nat -> HandlerBody)
    (fuel : nat) (l : nat) (d : SDL_AssertData) (fn file : string) (line : Z)
    (w : World) :
  assertionHandler w = PromptAssertion -> env_SDL_ASSERT w = Some "ignore" ->
  heap w !! l = Some d ->
  SDL_ReportAssertion user_handlers (S fuel) (Some l) fn file line w
  = Done SDL_ASSERTION_IGNORE (registered l fn file line w).
Proof.
  intros Hh Henv Hd.
  destruct (AlwaysIgnore d) eqn:Hflag.
  - now apply ReportAssertion_flagged with d.
  - apply ReportAssertion_passes_on with d; [exact Hd|exact Hflag| |now left].
    destruct (registered_keeps_surroundings l fn file line w)
      as (Hh' & _ & Henv' & _).
    unfold call_assertionHandler. rewrite Hh', Hh.
    unfold SDL_PromptAssertion, Getenv_SDL_ASSERT. rewrite Henv'. now rewrite Henv.
Qed.

(** The record that has failed [c] times since its first failure at
    [fn], [file], [line], linked in front of [head]. *)
Lemma registered_iter_first (l : nat) (d : SDL_AssertData) (fn file : string)
    (line : Z) (w : World) :
  heap w !! l = Some d -> TriggerCount d = 0 ->
  forall k : nat, Z.of_nat (S k) <= int_max ->
  Nat.iter (S k) (registered l fn file line) w
  = with_triggeredAssertions (Some l)
      (with_heap
         (<[l := mkAssertData (AlwaysIgnore d) (Z.of_nat (S k)) (Condition d)
                   file line fn (triggeredAssertions w)]> (heap w)) w).
Proof.
  intros Hd H0. induction k as [|k IH]; intros Hk.
  - cbn [Nat.iter nat_rect]. unfold registered. rewrite Hd. cbv zeta.
    unfold registered_record, count_trigger, capture_location. rewrite H0.
    change (0 =? 0) with true. cbv iota.
    cbn [TriggerCount set_Linenum set_Filename set_Function set_TriggerCount].
    rewrite H0. change (wrap_int (0 + 1)) with 1. change (1 =? 1) with true.
    cbv iota. reflexivity.
  - change (Nat.iter (S (S k)) (registered l fn file line) w)
      with (registered l fn file line (Nat.iter (S k) (registered l fn file line) w)).
    rewrite IH by lia.
    set (r := mkAssertData (AlwaysIgnore d) (Z.of_nat (S k)) (Condition d)
                file line fn (triggeredAssertions w)).
    assert (Hr : heap (with_triggeredAssertions (Some l)
                          (with_heap (<[l := r]> (heap w)) w)) !! l = Some r)
      by (cbn; eapply lookup_updated, Hd).
    rewrite (registered_again _ _ _ _ _ _ Hr) by (cbn [TriggerCount r]; lia).
    cbn [heap with_heap with_triggeredAssertions].
    rewrite list_insert_insert_eq. unfold set_TriggerCount. cbn [r AlwaysIgnore
      TriggerCount Condition Filename Linenum Function Next].
    replace (Z.of_nat (S k) + 1) with (Z.of_nat (S (S k))) by lia. reflexivity.
Qed.

Lemma report_repeatedly_ignore_override (user_handlers : nat -> HandlerBody)
    (fuel : nat) (l : nat) (fn file : string) (line : Z) :
  forall (n : nat) (w : World) (d : SDL_AssertData),
  assertionHandler w = PromptAssertion -> env_SDL_ASSERT w = Some "ignore" ->
  heap w !! l = Some d ->
  report_repeatedly user_handlers (S fuel) n (Some l) fn file line w
  = Done (repeat SDL_ASSERTION_IGNORE n) (Nat.iter n (registered l fn file line) w).
Proof.
  induction n as [|n IH]; intros w d Hh Henv Hd; [reflexivity|].
  rewrite Nat.iter_succ_r. cbn [report_repeatedly].
  rewrite (bind_Done _ _ _ _ _
             (ReportAssertion_ignore_override user_handlers fuel l d fn file line
                w Hh Henv Hd)).
  destruct (registered_keeps_surroundings l fn file line w) as (Hh' & _ & Henv' & _).
  rewrite (bind_Done _ _ _ _ _
             (IH _ _ (eq_trans Hh' Hh) (eq_trans Henv' Henv)
                (registered_lookup l fn file line w d Hd))).
  reflexivity.
Qed.

(** X12: when it is one and the same record that fails [n] times in a
    row (default handler, override [ignore]), the record counts [n]
    failures, keeps the location of the first and is on the list once: it
    was put in front of the list at the first failure and the list is not
    changed by the later ones. *)
Theorem same_record_counts_and_is_listed_once (user_handlers : nat -> HandlerBody)
    (fuel n : nat) (l : nat) (d : SDL_AssertData) (fn file : string) (line : Z)
    (w : World)
    (Hhandler : assertionHandler w = PromptAssertion)
    (Henv : env_SDL_ASSERT w = Some "ignore")
    (Hd : heap w !! l = Some d)
    (Hfresh : TriggerCount d = 0)
    (Hnew : ~ in_registry w l)
    (Hn : Z.of_nat (S n) <= int_max) :
  let w' := with_triggeredAssertions (Some l)
              (with_heap
                 (<[l := mkAssertData (AlwaysIgnore d) (Z.of_nat (S n)) (Condition d)
                           file line fn (triggeredAssertions w)]> (heap w)) w) in
  report_repeatedly user_handlers (S fuel) (S n) (Some l) fn file line w
    = Done (repeat SDL_ASSERTION_IGNORE (S n)) w' /\
  (forall l', in_registry w' l' <-> l' = l \/ in_registry w l') /\
  (forall x, x <> l -> heap w' !! x = heap w !! x).
Proof.
  intros w'. split; [|split].
  - rewrite (report_repeatedly_ignore_override user_handlers fuel l fn file line
               (S n) w d Hhandler Henv Hd).
    now rewrite (registered_iter_first l d fn file line w Hd Hfresh n Hn).
  - intros l'. unfold in_registry, w'. cbn [heap with_heap with_triggeredAssertions
      triggeredAssertions].
    apply reaches_link_front; [eapply lookup_lt_Some, Hd | reflexivity | exact Hnew].
  - intros x Hx. unfold w'. cbn [heap with_heap with_triggeredAssertions].
    now rewrite list_lookup_insert_ne.
Qed.

Lemma same_record_counts_and_is_listed_once_witness :
  report_repeatedly no_user_handlers 1 3 (Some 0%nat) "main.check" "main.go" 10
    (with_heap [zero_AssertData] ignoring_World)
  = Done [SDL_ASSERTION_IGNORE; SDL_ASSERTION_IGNORE; SDL_ASSERTION_IGNORE]
      (with_triggeredAssertions (Some 0%nat)
         (with_heap [mkAssertData false 3 "" "main.go" 10 "main.check" None]
            ignoring_World)).
Proof.
  apply (same_record_counts_and_is_listed_once no_user_handlers 0 2 0
           zero_AssertData "main.check" "main.go" 10
           (with_heap [zero_AssertData] ignoring_World)
           eq_refl eq_refl eq_refl eq_refl).
  - intros Hr. unfold in_registry in Hr. cbn in Hr. inversion Hr.
  - unfold int_max. simpl. lia.
Defined.

End RegistryFacts.

Section ResetFacts.
Import MachineInt Assert.

Lemma reset_record_twice (d : SDL_AssertData) :
  reset_record (reset_record d) = reset_record d.
Proof. reflexivity. Qed.

(** Clearing a record removes walks, it adds none. *)
Lemma reaches_after_clearing (h : list SDL_AssertData) (x : nat) (d : SDL_AssertData) :
  forall p l, reaches (<[x := reset_record d]> h) p l -> reaches h p l.
Proof.
  intros p l Hr. induction Hr as [y | y d' l' Hd' Hr IH]; [constructor|].
  destruct (decide (x = y)) as [->|Hne].
  - destruct (decide (y < length h)%nat) as [Hy|Hy].
    + rewrite list_lookup_insert_eq in Hd' by exact Hy. injection Hd' as <-.
      cbn in Hr. inversion Hr.
    + rewrite list_insert_ge in Hd' by lia.
      now apply reaches_next with d'.
  - rewrite list_lookup_insert_ne in Hd' by exact Hne.
    now apply reaches_next with d'.
Qed.

(** What a run of the loop that returns has done to the store. *)
Lemma reset_loop_frame : forall (fuel : nat) (item : option nat) (w w' : World),
  reset_loop fuel item w = Done tt w' ->
  w' = with_heap (heap w') w /\
  length (heap w') = length (heap w) /\
  (forall l d, heap w !! l = Some d ->
     heap w' !! l = Some d \/ heap w' !! l = Some (reset_record d)) /\
  (forall l, ~ reaches (heap w) item l -> heap w' !! l = heap w !! l).
Proof.
  induction fuel as [|k IH]; intros item w w' Hrun.
  - destruct item; [discriminate|]. injection Hrun as <-.
    rewrite with_heap_same. repeat split; auto.
  - destruct item as [x|].
    2:{ injection Hrun as <-. rewrite with_heap_same. repeat split; auto. }
    destruct (heap w !! x) as [d|] eqn:Hd.
    2:{ cbn [reset_loop] in Hrun. unfold bind at 1, load in Hrun.
        rewrite Hd in Hrun. discriminate. }
    rewrite (reset_loop_step _ _ _ _ Hd) in Hrun.
    pose proof (lookup_lt_Some _ _ _ Hd) as Hx.
    destruct (IH _ _ _ Hrun) as (Hw & Hlen & Hrec & Hframe).
    cbn [heap with_heap] in Hlen, Hrec, Hframe.
    split; [exact Hw|]. split; [now rewrite Hlen, length_insert|]. split.
    + intros l d0 Hl. destruct (decide (x = l)) as [<-|Hne].
      * assert (d0 = d) by congruence. subst d0. right.
        destruct (Hrec x (reset_record d)) as [H|H];
          [now apply list_lookup_insert_eq | exact H | exact H].
      * apply Hrec. now rewrite list_lookup_insert_ne.
    + intros l Hnot.
      assert (Hne : x <> l) by (intros ->; apply Hnot; constructor).
      rewrite Hframe.
      * now rewrite list_lookup_insert_ne.
      * intros Hr. apply Hnot. apply reaches_next with d; [exact Hd|].
        now apply reaches_after_clearing in Hr.
Qed.

(** X13: [SDL_ResetAssertionReport] changes the list head and the records
    that were on the list, and nothing else: a record that was not on the
    list is untouched, no record loses its condition or its location, the
    handler, the environment and the streams stay; no pointer leaves the
    store afterwards, and a second reset changes nothing. *)
Theorem ResetAssertionReport_frame (w : World) (Hclosed : heap_closed w) :
  exists w', SDL_ResetAssertionReport w = Done tt w' /\
    w' = with_triggeredAssertions None (with_heap (heap w') w) /\
    length (heap w') = length (heap w) /\
    (forall l d, heap w !! l = Some d ->
       exists d', heap w' !! l = Some d' /\
         Condition d' = Condition d /\ Function d' = Function d /\
         Filename d' = Filename d /\ Linenum d' = Linenum d) /\
    (forall l, ~ in_registry w l -> heap w' !! l = heap w !! l) /\
    heap_closed w' /\
    SDL_ResetAssertionReport w' = Done tt w'.
Proof.
  destruct (ResetAssertionReport_spec w Hclosed) as (h' & Hrun & _ & _).
  assert (Hloop : reset_loop (S (length (heap w))) (triggeredAssertions w) w
                  = Done tt (with_heap h' w)).
  { unfold SDL_ResetAssertionReport, bind in Hrun.
    destruct (reset_loop (S (length (heap w))) (triggeredAssertions w) w)
      as [[] w1| | |] eqn:Eloop; try discriminate.
    destruct (reset_loop_frame _ _ _ _ Eloop) as (Hw1 & _).
    unfold set_triggeredAssertions in Hrun. inversion Hrun as [Hh].
    rewrite Hw1, Hh. reflexivity. }
  destruct (reset_loop_frame _ _ _ _ Hloop) as (_ & Hlen & Hrec & Hframe).
  cbn [heap with_heap] in Hlen, Hrec, Hframe.
  exists (with_triggeredAssertions None (with_heap h' w)).
  split; [exact Hrun|]. split; [reflexivity|]. split; [exact Hlen|].
  split; [|split; [exact Hframe|split]].
  - intros l d Hl. destruct (Hrec l d Hl) as [H|H]; eexists; (split; [exact H|]);
      repeat split.
  - split; [exact I|]. cbn [heap with_heap with_triggeredAssertions].
    apply Forall_lookup_2. intros i d' Hi.
    assert (Hi' : (i < length (heap w))%nat)
      by (rewrite <- Hlen; eapply lookup_lt_Some, Hi).
    destruct (lookup_lt_is_Some_2 _ _ Hi') as [d Hd].
    destruct Hclosed as [_ Hnext].
    pose proof (Forall_lookup_1 _ _ _ _ Hnext Hd) as Hv. cbv beta in Hv.
    destruct (Hrec i d Hd) as [H|H]; rewrite H in Hi; injection Hi as <-.
    + destruct (Next d); [cbn in *; lia | exact I].
    + exact I.
  - reflexivity.
Qed.

Lemma ResetAssertionReport_frame_witness :
  exists w', SDL_ResetAssertionReport two_failures_World = Done tt w' /\
    length (heap w') = 2%nat /\ SDL_ResetAssertionReport w' = Done tt w'.
Proof.
  assert (Hclosed : heap_closed two_failures_World).
  { split; [cbn; lia|]. repeat constructor; cbn; lia. }
  destruct (ResetAssertionReport_frame two_failures_World Hclosed)
    as (w' & Hrun & _ & Hlen & _ & _ & _ & Hagain).
  exists w'. split; [exact Hrun|]. split; [exact Hlen | exact Hagain].
Defined.

(** *** Answers at the prompt *)

Lemma prompt_loop_skips_unrecognized (state : SDL_AssertState)
    (ln : ScanLine) (rest : list ScanLine) :
  forall (pre : list ScanLine) (err : list string),
  Forall unrecognized pre ->
  prompt_loop state (pre ++ ln :: rest) err
  = prompt_loop state (ln :: rest) (err ++ repeat prompt_text (length pre))%list.
Proof.
  induction pre as [|p pre IH]; intros err Hall.
  - cbn [app length repeat]. now rewrite app_nil_r.
  - inversion Hall as [|? ? (buf & -> & Ha & Hb & Hr & Hi & HA) Hrest]; subst.
    cbn [app prompt_loop].
    apply String.eqb_neq in Ha, Hb, Hr, Hi, HA. rewrite Ha, Hb, Hr, Hi, HA.
    rewrite (IH _ Hrest). cbn [length repeat]. now rewrite <- app_assoc.
Qed.

(** X14: at the prompt the first line that is an answer decides: after
    any number of lines that are single unknown words, [a], [b], [r], [i]
    and [A] give their verdicts, and a line that cannot be scanned (blank,
    or more than one word) gives ABORT like the end of input.  The prompt
    was written once per line read, and the lines after the answer are
    left unread. *)
Theorem PromptAssertion_first_answer_decides (data : option nat) (u : userdata)
    (w : World) (pre : list ScanLine) (ln : ScanLine) (rest : list ScanLine)
    (Henv : env_SDL_ASSERT w = None)
    (Hin : stdin w = (pre ++ ln :: rest)%list)
    (Hpre : Forall unrecognized pre) :
  let w' := with_stdio rest
              (stderr w ++ repeat prompt_text (S (length pre)))%list w in
  (ln = Token "a" -> SDL_PromptAssertion data u w = Done SDL_ASSERTION_ABORT w') /\
  (ln = Token "b" -> SDL_PromptAssertion data u w = Done SDL_ASSERTION_BREAK w') /\
  (ln = Token "r" -> SDL_PromptAssertion data u w = Done SDL_ASSERTION_RETRY w') /\
  (ln = Token "i" -> SDL_PromptAssertion data u w = Done SDL_ASSERTION_IGNORE w') /\
  (ln = Token "A" ->
     SDL_PromptAssertion data u w = Done SDL_ASSERTION_ALWAYS_IGNORE w') /\
  (ln = Rejected -> SDL_PromptAssertion data u w = Done SDL_ASSERTION_ABORT w').
Proof.
  intros w'.
  assert (Hrun : SDL_PromptAssertion data u w
            = let '(state, input, err) :=
                prompt_loop SDL_ASSERTION_ABORT (ln :: rest)
                  (stderr w ++ repeat prompt_text (length pre))%list in
              Done state (with_stdio input err w)).
  { unfold SDL_PromptAssertion, Getenv_SDL_ASSERT. rewrite Henv, Hin.
    cbn [String.eqb negb]. cbv zeta.
    now rewrite (prompt_loop_skips_unrecognized _ _ _ _ _ Hpre). }
  assert (Herr : ((stderr w ++ repeat prompt_text (length pre)) ++ [prompt_text]
                  = stderr w ++ repeat prompt_text (S (length pre)))%list).
  { rewrite <- app_assoc. f_equal. symmetry. apply repeat_cons. }
  repeat split; intros ->; rewrite Hrun; cbn [prompt_loop]; cbv iota beta;
    cbn [String.eqb Ascii.eqb Bool.eqb]; cbv iota; rewrite Herr; reflexivity.
Qed.

Lemma PromptAssertion_first_answer_decides_witness :
  SDL_PromptAssertion None None (initial_World None [Token "x"; Token "i"; Token "a"])
  = Done SDL_ASSERTION_IGNORE
      (with_stdio [Token "a"] [prompt_text; prompt_text]
         (initial_World None [Token "x"; Token "i"; Token "a"])).
Proof.
  apply (PromptAssertion_first_answer_decides None None
           (initial_World None [Token "x"; Token "i"; Token "a"])
           [Token "x"] (Token "i") [Token "a"] eq_refl eq_refl).
  - repeat constructor. exists "x". repeat split; discriminate.
  - reflexivity.
Defined.

End ResetFacts.

Section ReportFacts.
Import MachineInt Assert.

Lemma report_loop_nil (fuel : nat) (w : World) : report_loop fuel None w = Done [] w.
Proof. destruct fuel; reflexivity. Qed.

(** Along a list that ends, the loop makes one call per record, in the
    order of the list, and changes nothing. *)
Lemma report_loop_chain (w : World) :
  forall (ls : list nat) (p : option nat) (fuel : nat),
  chain (heap w) p ls -> (length ls <= fuel)%nat ->
  exists calls, report_loop fuel p w = Done calls w /\
    Forall2 (fun l call => exists d, heap w !! l = Some d /\ call = report_entry d)
            ls calls.
Proof.
  induction ls as [|l ls IH]; intros p fuel Hchain Hfuel.
  - inversion Hchain; subst. exists []. rewrite report_loop_nil. now split.
  - inversion Hchain as [|? d ? Hd Hrest]; subst.
    destruct fuel as [|k]; [cbn in Hfuel; lia|].
    destruct (IH (Next d) k Hrest) as (calls & Hrun & Hall); [cbn in Hfuel; lia|].
    exists (report_entry d :: calls). split.
    + cbn [report_loop]. rewrite (bind_Done _ _ _ _ _ (load_at _ _ _ Hd)).
      rewrite (bind_Done _ _ _ _ _ Hrun). reflexivity.
    + constructor; [now exists d | exact Hall].
Qed.

Lemma chain_reaches (h : list SDL_AssertData) (p : option nat) (ls : list nat) :
  chain h p ls -> forall l, In l ls -> reaches h p l.
Proof.
  intros Hchain. induction Hchain as [|x d ls Hd Hrest IH]; intros l Hin.
  - destruct Hin.
  - destruct Hin as [<-|Hin]; [constructor|].
    apply reaches_next with d; [exact Hd | now apply IH].
Qed.

(** X15: [SDL_GenerateAssertionReport] does nothing when the list is
    empty.  On a list of [n] records that ends it logs two header calls,
    one call per record in list order (most recent first) and a closing
    call, then resets: the list is empty and the records it listed are
    cleared.  [SDL_AssertionsQuit] does the same when the level is above
    0 and nothing otherwise. *)
Theorem GenerateAssertionReport_lists_then_resets (w : World) (ls : list nat)
    (fuel : nat)
    (Hchain : chain (heap w) (triggeredAssertions w) ls)
    (Hclosed : heap_closed w)
    (Hfuel : (length ls <= fuel)%nat) :
  (ls = [] -> SDL_GenerateAssertionReport fuel w = Done [] w) /\
  (ls <> [] ->
     exists calls w',
       SDL_GenerateAssertionReport fuel w
       = Done ([debug_print (newline ++ newline ++ "SDL assertion report." ++ newline) [];
                debug_print ("All SDL assertions between last init/quit:"
                             ++ newline ++ newline) []]
               ++ calls ++ [debug_print newline []])%list w' /\
       Forall2 (fun l call => exists d, heap w !! l = Some d /\ call = report_entry d)
               ls calls /\
       triggeredAssertions w' = None /\
       (forall l, In l ls -> cleared (heap w') l)) /\
  (SDL_ASSERT_LEVEL w > 0 ->
     SDL_AssertionsQuit fuel w = SDL_GenerateAssertionReport fuel w) /\
  (SDL_ASSERT_LEVEL w <= 0 -> SDL_AssertionsQuit fuel w = Done [] w).
Proof.
  split; [|split; [|split]].
  - intros ->. inversion Hchain as [Hnil|]. unfold SDL_GenerateAssertionReport.
    unfold bind, get_triggeredAssertions. now rewrite <- Hnil.
  - intros Hne.
    destruct (report_loop_chain w ls _ fuel Hchain Hfuel) as (calls & Hrun & Hall).
    destruct (ResetAssertionReport_spec w Hclosed) as (h' & Hreset & _ & Hcleared).
    exists calls, (with_triggeredAssertions None (with_heap h' w)).
    split; [|split; [exact Hall|split; [reflexivity|]]].
    + unfold SDL_GenerateAssertionReport.
      unfold bind at 1, get_triggeredAssertions.
      destruct (triggeredAssertions w) as [x|] eqn:Hhead.
      * rewrite (bind_Done _ _ _ _ _ Hrun). rewrite (bind_Done _ _ _ _ _ Hreset).
        reflexivity.
      * inversion Hchain; subst. contradiction.
    + intros l Hin. cbn [heap with_heap with_triggeredAssertions].
      apply Hcleared. now apply (chain_reaches _ _ _ Hchain).
  - intros Hlevel. unfold SDL_AssertionsQuit.
    destruct (Z.gtb_spec (SDL_ASSERT_LEVEL w) 0); [reflexivity|lia].
  - intros Hlevel. unfold SDL_AssertionsQuit.
    destruct (Z.gtb_spec (SDL_ASSERT_LEVEL w) 0); [lia|reflexivity].
Qed.

Lemma GenerateAssertionReport_lists_then_resets_witness :
  exists calls w',
    SDL_GenerateAssertionReport 2 report_World
    = Done ([debug_print (newline ++ newline ++ "SDL assertion report." ++ newline) [];
             debug_print ("All SDL assertions between last init/quit:"
                          ++ newline ++ newline) []]
            ++ calls ++ [debug_print newline []])%list w' /\
    length calls = 2%nat /\ triggeredAssertions w' = None.
Proof.
  assert (Hchain : chain (heap report_World) (triggeredAssertions report_World)
                     [1%nat; 0%nat]).
  { cbn. eapply chain_cons; [reflexivity|]. cbn.
    eapply chain_cons; [reflexivity|]. cbn. constructor. }
  assert (Hclosed : heap_closed report_World).
  { split; [cbn; lia|]. repeat constructor; cbn; lia. }
  assert (Hfuel : (length [1%nat; 0%nat] <= 2)%nat) by (simpl; lia).
  destruct (GenerateAssertionReport_lists_then_resets report_World [1%nat; 0%nat] 2
              Hchain Hclosed Hfuel) as (_ & Hreport & _).
  destruct (Hreport ltac:(discriminate)) as (calls & w' & Hrun & Hall & Hnil & _).
  exists calls, w'. split; [exact Hrun|]. split; [|exact Hnil].
  symmetry. exact (Forall2_length _ _ _ Hall).
Defined.

Lemma report_loop_endless (w : World) :
  Forall (fun d => valid_ptr (heap w) (Next d)) (heap w) ->
  forall (fuel : nat) (p : option nat),
  valid_ptr (heap w) p ->
  (forall ls, ~ chain (heap w) p ls) ->
  report_loop fuel p w = OutOfFuel.
Proof.
  intros Hnext. induction fuel as [|k IH]; intros p Hp Hendless.
  - destruct p; [reflexivity|]. exfalso. apply (Hendless []). constructor.
  - destruct p as [x|]; [|exfalso; apply (Hendless []); constructor].
    cbn in Hp. destruct (lookup_lt_is_Some_2 _ _ Hp) as [d Hd].
    cbn [report_loop]. rewrite (bind_Done _ _ _ _ _ (load_at _ _ _ Hd)).
    unfold bind. rewrite IH; [reflexivity| |].
    + exact (Forall_lookup_1 _ _ _ _ Hnext Hd).
    + intros ls Hc. apply (Hendless (x :: ls)). now apply chain_cons with d.
Qed.

(** X16: on a list that does not end (a record that points back into
    the list) [SDL_GenerateAssertionReport] never returns, whatever bound
    is put on its loop, while [SDL_ResetAssertionReport] still returns
    and leaves a world on which the report is a no-op. *)
Theorem GenerateAssertionReport_never_ends_on_a_cycle (w : World) (fuel : nat)
    (Hclosed : heap_closed w)
    (Hendless : forall ls, ~ chain (heap w) (triggeredAssertions w) ls) :
  SDL_GenerateAssertionReport fuel w = OutOfFuel /\
  exists w', SDL_ResetAssertionReport w = Done tt w' /\
    SDL_GenerateAssertionReport fuel w' = Done [] w'.
Proof.
  destruct Hclosed as [Hhead Hnext]. split.
  - unfold SDL_GenerateAssertionReport. unfold bind at 1, get_triggeredAssertions.
    destruct (triggeredAssertions w) as [x|] eqn:Hx.
    + unfold bind. rewrite report_loop_endless; auto.
    + exfalso. apply (Hendless []). constructor.
  - destruct (ResetAssertionReport_spec w (conj Hhead Hnext)) as (h' & Hrun & _).
    eexists. split; [exact Hrun|]. reflexivity.
Qed.


Lemma GenerateAssertionReport_never_ends_on_a_cycle_witness :
  SDL_GenerateAssertionReport 100 self_linked_World = OutOfFuel.
Proof.
  assert (Hclosed : heap_closed self_linked_World).
  { split; [cbn; lia|]. repeat constructor; cbn; lia. }
  apply (GenerateAssertionReport_never_ends_on_a_cycle self_linked_World 100 Hclosed).
  intros ls. induction ls as [|l ls IH]; intros Hc.
  - inversion Hc.
  - inversion Hc as [|? d ? Hd Hrest]; subst. cbn in Hd.
    injection Hd as <-. exact (IH Hrest).
Defined.

(** *** Handlers *)

(** X17: after [SDL_SetAssertionHandler(handler, userdata)] the getter
    returns that pair and the next failure is put to that handler with
    that user data; with a nil handler the default prompt is restored and
    the user data passed along is dropped.  The list and the records are
    not touched. *)
Theorem SetAssertionHandler_then_Get (user_handlers : nat -> HandlerBody)
    (handler : option HandlerRef) (u : userdata) (w : World) :
  exists w', SDL_SetAssertionHandler handler u w = Done tt w' /\
    heap w' = heap w /\ triggeredAssertions w' = triggeredAssertions w /\
    (forall h, handler = Some h -> SDL_GetAssertionHandler w' = Done (h, u) w') /\
    (handler = None ->
       SDL_GetAssertionHandler w' = Done (PromptAssertion, None) w' /\
       forall report data,
         call_assertionHandler user_handlers report data w'
         = SDL_PromptAssertion data None w') /\
    (forall id report data, handler = Some (UserHandler id) ->
       call_assertionHandler user_handlers report data w'
       = user_handlers id report data u w').
Proof.
  destruct handler as [h|].
  - exists (with_handler h u w). repeat split; try discriminate.
    + intros h' Hh. now injection Hh as <-.
    + intros id report data Hh. now injection Hh as ->.
  - exists (with_handler PromptAssertion None w). repeat split; discriminate.
Qed.

End ReportFacts.
